(** * run_export.py: driving a CAD host through one batch export

    A shallow embedding of [src/run_export.py] and the proofs of the
    properties its specification states.

    Modelling conventions.
    - A Python [str] is a Rocq [string]: the sequence of bytes of its
      UTF-8 encoding.  [write_text(..., encoding="utf-8")] therefore
      stores the text itself.
    - [pathlib.Path] is modelled in its POSIX flavour: a path is a root
      (the empty string, one slash or two slashes) and a list of
      components.
    - The file system is a finite map from locations (the components of
      an absolute path, innermost first) to nodes; there are no symbolic
      links and no permissions, and no string holds a NUL character.  A
      name is at most [NAME_MAX] = 255 bytes and a path less than
      [PATH_MAX] = 4096 bytes long: longer ones make a system call fail
      with [ENAMETOOLONG].
    - The CAD host is a black box: a function from the launch request and
      the file system it sees to an exit code and a new file system, a
      launch failure, or no answer at all. *)

From Stdlib Require Import ZArith Ascii String List Bool Lia.
From stdpp Require Import base option gmap strings list fin_maps.

Local Open Scope string_scope.

(** ** Text *)

Module Text.

Definition LF : ascii := ascii_of_nat 10.
Definition slash : ascii := "/"%char.
Definition dquote : ascii := ascii_of_nat 34.

Definition nl : string := String LF EmptyString.
Definition dq : string := String dquote EmptyString.

(** Python's [sep.join(items)]. *)
Fixpoint join (sep : string) (items : list string) : string :=
  match items with
  | [] => EmptyString
  | [x] => x
  | x :: rest => x +:+ sep +:+ join sep rest
  end.

(** Python's [s.split(c)] for a separator of one character: the list is
    never empty, and [n] separators give [n + 1] fields. *)
Fixpoint split (c : ascii) (s : string) : list string :=
  match s with
  | EmptyString => [EmptyString]
  | String a s' =>
      if Ascii.eqb a c then EmptyString :: split c s'
      else match split c s' with
           | [] => [String a EmptyString]
           | h :: t => String a h :: t
           end
  end.

(** The character [c] occurs in [s]. *)
Fixpoint has_char (c : ascii) (s : string) : bool :=
  match s with
  | EmptyString => false
  | String a s' => Ascii.eqb a c || has_char c s'
  end.

(** The lines of a text whose every line is ended by a line feed: the
    fields between line feeds, without the empty field after the last
    one. *)
Definition lines (s : string) : list string :=
  let fields := split LF s in
  match last fields with
  | Some EmptyString => removelast fields
  | _ => fields
  end.

(** The text whose lines are [ls], each ended by a line feed. *)
Fixpoint unlines (ls : list string) : string :=
  match ls with
  | [] => EmptyString
  | x :: rest => x +:+ nl +:+ unlines rest
  end.

End Text.

(** ** pathlib, POSIX flavour *)

Module Pathlib.
Import Text.

(** A parsed path: [PurePosixPath.root] and the components after it.  The
    drive of a POSIX path is always empty and is left out. *)
Record Path : Type := mkPath { root : string; tail : list string }.

(** [posixpath.splitroot] without the (empty) drive: one leading slash is
    the root, exactly two leading slashes are a root of their own, more
    collapse to one. *)
Definition splitroot (p : string) : string * string :=
  match p with
  | String a p1 =>
      if Ascii.eqb a slash then
        match p1 with
        | String b p2 =>
            if Ascii.eqb b slash then
              match p2 with
              | String c _ =>
                  if Ascii.eqb c slash then ("/", p1) else ("//", p2)
              | EmptyString => ("//", p2)
              end
            else ("/", p1)
        | EmptyString => ("/", p1)
        end
      else ("", p)
  | EmptyString => ("", p)
  end.

Definition keep_part (x : string) : bool :=
  negb (String.eqb x "") && negb (String.eqb x ".").

(** [Path(s)]: [PurePath._parse_path]. *)
Definition parse (s : string) : Path :=
  match s with
  | EmptyString => mkPath "" []
  | _ =>
      let '(r, rel) := splitroot s in
      mkPath r (filter (fun x => keep_part x = true) (split slash rel))
  end.

(** [str(path)]: [PurePath._format_parsed_parts], or a dot when that is
    empty. *)
Definition str (p : Path) : string :=
  let s := root p +:+ join "/" (tail p) in
  if String.eqb s "" then "." else s.

(** [path / name] for a single component [name]. *)
Definition joinpath (p : Path) (name : string) : Path :=
  mkPath (root p) (tail p ++ [name]).

(** [path.parent]: the path itself when there is no component left. *)
Definition parent (p : Path) : Path :=
  mkPath (root p) (removelast (tail p)).

(** [path.is_absolute()]. *)
Definition is_absolute (p : Path) : bool := negb (String.eqb (root p) "").

(** A relative text: empty, or not starting with a slash. *)
Definition no_lead_slash (s : string) : Prop :=
  match s with
  | EmptyString => True
  | String a _ => Ascii.eqb a slash = false
  end.

(** What [parse] produces: one of the three roots, and components that
    are neither empty, nor a dot, nor contain a slash. *)
Definition wf_part (x : string) : Prop :=
  keep_part x = true /\ has_char slash x = false.

Definition wf (p : Path) : Prop :=
  (root p = "" \/ root p = "/" \/ root p = "//") /\ Forall wf_part (tail p).

End Pathlib.

(** ** The operating system *)

Module OS.
Import Text Pathlib.

Inductive node : Type :=
  | Dir
  | File (content : string).

Inductive errno : Type :=
  ENOENT | EEXIST | ENOTDIR | EISDIR | EACCES | ENAMETOOLONG | EBADF | ELOOP.

(** The longest name of a directory entry and the length a path must
    stay below, in bytes. *)
Definition NAME_MAX : nat := 255.
Definition PATH_MAX : nat := 4096.

(** pathlib's [_ignore_error]: the failures of [os.stat] that [exists()]
    and [is_dir()] take for "not there"; every other one is raised
    again. *)
Definition ignore_error (e : errno) : bool :=
  match e with
  | ENOENT | ENOTDIR | EBADF | ELOOP => true
  | _ => false
  end.

(** The exceptions of a run.  [FileNotFoundError arg] is the one the
    program builds itself, with its single argument; [OSError e filename]
    is raised by a system call that failed with [e] on [filename]. *)
Inductive exn : Type :=
  | FileNotFoundError (arg : string)
  | OSError (e : errno) (filename : string).

(** The request [subprocess.run(cmd, env=env, cwd=cwd)] hands to the
    operating system. *)
Record Launch : Type := mkLaunch {
  l_cmd : list string;
  l_env : gmap string string;
  l_cwd : string
}.

(** A process that was started, with the file system it found. *)
Record Started : Type := mkStarted {
  st_launch : Launch;
  st_fs : gmap (list string) node
}.

(** The state a run reads and changes.  [launched] is a ghost log of the
    child processes started so far. *)
Record World : Type := mkWorld {
  fs : gmap (list string) node;
  cwd : list string;
  environ : gmap string string;
  launched : list Started
}.

(** What the child process does. *)
Inductive HostResult : Type :=
  | Exited (returncode : Z) (fs_after : gmap (list string) node)
  | LaunchFailed (e : exn)
  | Hangs.

Inductive outcome (A : Type) : Type :=
  | Return (a : A)
  | Raise (e : exn)
  | Hang.
Arguments Return {A} a.
Arguments Raise {A} e.
Arguments Hang {A}.

(** Computations: state passing, with exceptions that keep the state
    reached so far. *)
Definition M (A : Type) : Type := World -> World * outcome A.

Definition ret {A} (a : A) : M A := fun w => (w, Return a).
Definition raise {A} (e : exn) : M A := fun w => (w, Raise e).
Definition bind {A B} (c : M A) (k : A -> M B) : M B :=
  fun w =>
    match c w with
    | (w1, Return a) => k a w1
    | (w1, Raise e) => (w1, Raise e)
    | (w1, Hang) => (w1, Hang)
    end.

Notation "'do' x <- c ; k" := (bind c (fun x => k))
  (at level 10, x name, c at level 100, k at level 200).
Notation "'exec' c ; k" := (bind c (fun _ => k))
  (at level 10, c at level 100, k at level 200).

(** *** Name resolution *)

(** The root directory is the empty location and always exists. *)
Definition node_at (f : gmap (list string) node) (l : list string) : option node :=
  match l with
  | [] => Some Dir
  | _ => f !! l
  end.

Inductive walked : Type :=
  | At (l : list string)
  | NoEntry
  | NotDir
  | TooLong.

(** Resolution of the components of a path from the location [cur]: every
    component is looked up in a directory that must exist, under a name
    that must not be longer than [NAME_MAX]; two dots go to the directory
    above. *)
Fixpoint walk (f : gmap (list string) node) (cur : list string)
    (comps : list string) : walked :=
  match comps with
  | [] => At cur
  | c :: rest =>
      match node_at f cur with
      | Some Dir =>
          if (NAME_MAX <? String.length c)%nat then TooLong
          else walk f (if String.eqb c ".." then List.tl cur else c :: cur) rest
      | Some (File _) => NotDir
      | None => NoEntry
      end
  end.

(** Resolution of the path a system call is given, [str(path)]: a path of
    [PATH_MAX] bytes or more is refused before any lookup. *)
Definition locate (w : World) (p : Path) : walked :=
  if (PATH_MAX <=? String.length (str p))%nat then TooLong
  else walk (fs w) (if is_absolute p then [] else cwd w) (tail p).

(** [os.stat(path)]. *)
Definition stat (w : World) (p : Path) : node + errno :=
  match locate w p with
  | At l => match node_at (fs w) l with
            | Some n => inl n
            | None => inr ENOENT
            end
  | NoEntry => inr ENOENT
  | NotDir => inr ENOTDIR
  | TooLong => inr ENAMETOOLONG
  end.

(** Facts about the world: the path names an entry, a directory ([stat]
    succeeds, on a directory). *)
Definition path_exists (w : World) (p : Path) : bool :=
  match stat w p with inl _ => true | inr _ => false end.

Definition path_is_dir (w : World) (p : Path) : bool :=
  match stat w p with inl Dir => true | _ => false end.

(** [path.exists()] and [path.is_dir()]: a [stat] that fails with an
    error of [ignore_error] gives [False], with any other error the
    [OSError] is raised again. *)
Definition exists_ (p : Path) : M bool :=
  fun w =>
    match stat w p with
    | inl _ => (w, Return true)
    | inr e =>
        if ignore_error e then (w, Return false)
        else (w, Raise (OSError e (str p)))
    end.

Definition is_dir (p : Path) : M bool :=
  fun w =>
    match stat w p with
    | inl Dir => (w, Return true)
    | inl (File _) => (w, Return false)
    | inr e =>
        if ignore_error e then (w, Return false)
        else (w, Raise (OSError e (str p)))
    end.

Definition set_fs (w : World) (f : gmap (list string) node) : World :=
  mkWorld f (cwd w) (environ w) (launched w).

(** What the file system calls leave alone. *)
Definition frame (w w' : World) : Prop :=
  cwd w' = cwd w /\ environ w' = environ w /\ launched w' = launched w.

(** A file system call changes the file system only, and either returns
    or raises. *)
Definition quiet {A} (c : M A) : Prop :=
  forall w, frame w (fst (c w)) /\ snd (c w) <> Hang.

(** [os.mkdir(path)]. *)
Definition os_mkdir (p : Path) : M unit :=
  fun w =>
    match locate w p with
    | At l => match node_at (fs w) l with
              | Some _ => (w, Raise (OSError EEXIST (str p)))
              | None => (set_fs w (<[l := Dir]> (fs w)), Return tt)
              end
    | NoEntry => (w, Raise (OSError ENOENT (str p)))
    | NotDir => (w, Raise (OSError ENOTDIR (str p)))
    | TooLong => (w, Raise (OSError ENAMETOOLONG (str p)))
    end.

(** [path.mkdir(parents=False, exist_ok=True)]: a missing parent is
    raised again, any other failure is forgiven when the path is a
    directory; when [is_dir()] itself raises, that error is the one that
    leaves. *)
Definition mkdir_exist_ok (p : Path) : M unit :=
  fun w =>
    match os_mkdir p w with
    | (w1, Raise (OSError ENOENT f)) => (w1, Raise (OSError ENOENT f))
    | (w1, Raise e) =>
        match is_dir p w1 with
        | (w2, Return true) => (w2, Return tt)
        | (w2, Return false) => (w2, Raise e)
        | (w2, Raise e') => (w2, Raise e')
        | (w2, Hang) => (w2, Hang)
        end
    | r => r
    end.

(** [Path(root, reversed rt).mkdir(parents=True, exist_ok=True)], by
    recursion on the components, innermost first: when a parent is
    missing the parent is made first, then the path itself. *)
Fixpoint mkdir_parents_rev (r : string) (rt : list string) : M unit :=
  fun w =>
    let p := mkPath r (rev rt) in
    match os_mkdir p w with
    | (w1, Raise (OSError ENOENT f)) =>
        match rt with
        | [] => (w1, Raise (OSError ENOENT f))
        | _ :: rt' =>
            (exec mkdir_parents_rev r rt'; mkdir_exist_ok p) w1
        end
    | (w1, Raise e) =>
        match is_dir p w1 with
        | (w2, Return true) => (w2, Return tt)
        | (w2, Return false) => (w2, Raise e)
        | (w2, Raise e') => (w2, Raise e')
        | (w2, Hang) => (w2, Hang)
        end
    | r => r
    end.

(** [path.mkdir(parents=True, exist_ok=True)]. *)
Definition mkdir (p : Path) : M unit :=
  mkdir_parents_rev (root p) (rev (tail p)).

(** [path.write_text(data, encoding="utf-8")]: the file is created or
    replaced. *)
Definition write_text (p : Path) (data : string) : M unit :=
  fun w =>
    match locate w p with
    | At l => match node_at (fs w) l with
              | Some Dir => (w, Raise (OSError EISDIR (str p)))
              | _ => (set_fs w (<[l := File data]> (fs w)), Return tt)
              end
    | NoEntry => (w, Raise (OSError ENOENT (str p)))
    | NotDir => (w, Raise (OSError ENOTDIR (str p)))
    | TooLong => (w, Raise (OSError ENAMETOOLONG (str p)))
    end.

(** The text of the file at [p], for the statements below. *)
Definition read_text (f : gmap (list string) node) (c : list string)
    (p : Path) : option string :=
  match walk f (if is_absolute p then [] else c) (tail p) with
  | At l => match node_at f l with
            | Some (File data) => Some data
            | _ => None
            end
  | _ => None
  end.

(** [os.environ.copy()] and [os.environ.get(key, default)]. *)
Definition environ_copy : M (gmap string string) :=
  fun w => (w, Return (environ w)).

Definition environ_get (key fallback : string) : M string :=
  fun w => (w, Return (default fallback (environ w !! key))).

(** [Path.cwd()] and [path.resolve()]: without symbolic links, the
    absolute path with its dots removed. *)
Fixpoint resolve_from (cur : list string) (comps : list string) : list string :=
  match comps with
  | [] => cur
  | c :: rest =>
      resolve_from (if String.eqb c ".." then List.tl cur else c :: cur) rest
  end.

Definition resolve (p : Path) : M Path :=
  fun w =>
    (w, Return (mkPath "/"
       (rev (resolve_from (if is_absolute p then [] else cwd w) (tail p))))).

(** [subprocess.run(cmd, env=env, cwd=cwd).returncode]: the call waits
    for the child, whatever time it takes.  [host] is the child, seen
    from outside; it is given the request, the file system and the
    caller's working directory. *)
Section Subprocess.
Variable host : Launch -> gmap (list string) node -> list string -> HostResult.

Definition subprocess_run (cmd : list string) (env : gmap string string)
    (dir : string) : M Z :=
  fun w =>
    let l := mkLaunch cmd env dir in
    let started := (launched w ++ [mkStarted l (fs w)])%list in
    match host l (fs w) (cwd w) with
    | Exited n f' => (mkWorld f' (cwd w) (environ w) started, Return n)
    | LaunchFailed e => (w, Raise e)
    | Hangs => (mkWorld (fs w) (cwd w) (environ w) started, Hang)
    end.

End Subprocess.

End OS.

(** ** The program: run_export.py *)

Module RunExport.
Import Text Pathlib OS.

(** How the interpreter ends: [raise SystemExit(code)], an exception
    nobody caught, or never. *)
Inductive ending : Type :=
  | SystemExit (code : Z)
  | Uncaught (e : exn)
  | Never.

(** The exit status the parent of the interpreter sees: the low eight
    bits of the code, 255 for a code that does not fit a C long, 1 after
    a traceback. *)
Definition exit_status (e : ending) : option Z :=
  match e with
  | SystemExit n =>
      Some (if (- 2 ^ 63 <=? n)%Z && (n <? 2 ^ 63)%Z then (n mod 256)%Z else 255%Z)
  | Uncaught _ => Some 1%Z
  | Never => None
  end.

(** The defaults of the keyword arguments [acad_exe] and [workdir]. *)
Definition default_acad_exe : string :=
  "C:\Program Files\Autodesk\AutoCAD 2026\acad.exe".
Definition default_workdir : string := "C:\PlantAutomationRun".

(** The fallbacks of [main] for the project file and the output path. *)
Definition default_project_xml : string :=
  "C:\Users\aleja\Downloads\NIRAS P3D Demo Project\P3D-FBUK Example Project\Project.xml".
Definition default_out_json : string :=
  "C:\PlantAutomationRun\plant_export.json".

(** The value of [scr_text]: the lines joined by line feeds, and one more
    line feed. *)
Definition scr_text (plugin_dll : Path) : string :=
  join nl
    [ "_.NETLOAD";
      dq +:+ str plugin_dll +:+ dq;
      "_.EXPORTPLANTJSON";
      "_.QUIT";
      "Y" ] +:+ nl.

Section Program.
Variable host : Launch -> gmap (list string) node -> list string -> HostResult.
(** [__file__], the path of run_export.py. *)
Variable module_file : string.

Definition export_plant_json
    (project_xml out_json plugin_dll acad_exe workdir : string) : M Z :=
  let acad := parse acad_exe in
  let project_xml := parse project_xml in
  let out_json := parse out_json in
  let plugin_dll := parse plugin_dll in
  let workdir := parse workdir in
  do found <- exists_ acad;
  if negb found then raise (FileNotFoundError (str acad)) else
  do found <- exists_ project_xml;
  if negb found then raise (FileNotFoundError (str project_xml)) else
  do found <- exists_ plugin_dll;
  if negb found then raise (FileNotFoundError (str plugin_dll)) else
  exec mkdir workdir;
  exec mkdir (parent out_json);
  let scr_path := joinpath workdir "run.scr" in
  exec write_text scr_path (scr_text plugin_dll);
  do env <- environ_copy;
  let env := <["PLANT_PROJECT_XML" := str project_xml]> env in
  let env := <["PLANT_JSON_OUT" := str out_json]> env in
  let cmd := [ str acad; "/product"; "PLNT3D"; "/b"; str scr_path ] in
  do returncode <- subprocess_run host cmd env (str workdir);
  ret returncode.

(** The first required input that does not exist, in the order host
    executable, project file, plug-in binary. *)
Definition first_missing (w : World) (acad project_xml plugin_dll : Path)
    : option Path :=
  List.find (fun p => negb (path_exists w p)) [acad; project_xml; plugin_dll].

(** What the check [if not path.exists(): raise FileNotFoundError(str(path))]
    raises in the world [w], if anything. *)
Definition check (w : World) (p : Path) : option exn :=
  match stat w p with
  | inl _ => None
  | inr e =>
      Some (if ignore_error e then FileNotFoundError (str p)
            else OSError e (str p))
  end.

(** What the three checks raise, in their order. *)
Definition rejection (w : World) (acad project_xml plugin_dll : Path)
    : option exn :=
  match check w acad with
  | Some e => Some e
  | None =>
      match check w project_xml with
      | Some e => Some e
      | None => check w plugin_dll
      end
  end.

(** The path an exception names. *)
Definition exn_path (e : exn) : string :=
  match e with
  | FileNotFoundError arg => arg
  | OSError _ filename => filename
  end.

Definition default_plugin_dll : M Path :=
  do here <- resolve (parse module_file);
  let repo_root := parent here in
  ret (joinpath (joinpath (joinpath (joinpath (joinpath repo_root
         "addin") "bin") "Release") "net8.0-windows") "PlantJsonExporter.dll").

Definition main : M Z :=
  do project_xml <- environ_get "PLANT_PROJECT_XML" default_project_xml;
  do out_json <- environ_get "PLANT_JSON_OUT" default_out_json;
  do fallback <- default_plugin_dll;
  do plugin_dll <- environ_get "PLANT_PLUGIN_DLL" (str fallback);
  do isdir <- is_dir (parse out_json);
  let out_json :=
    if isdir then str (joinpath (parse out_json) "plant_export.json")
    else out_json in
  export_plant_json project_xml out_json plugin_dll
    default_acad_exe default_workdir.

(** [if __name__ == "__main__": raise SystemExit(main())]. *)
Definition script (w : World) : World * ending :=
  match main w with
  | (w', Return n) => (w', SystemExit n)
  | (w', Raise e) => (w', Uncaught e)
  | (w', Hang) => (w', Never)
  end.

End Program.

End RunExport.

(** ** Sample runs *)

Module Scenario.
Import Text Pathlib OS RunExport.

(** A machine with the host under /opt, a project and the plug-in under
    /data, and the caller in /home/run, where a project file and a host
    named like the default one also lie. *)
Definition fs0 : gmap (list string) node :=
  list_to_map
    [ (["opt"], Dir);
      (["acad"; "opt"], File "host");
      (["data"], Dir);
      (["Project.xml"; "data"], File "<project/>");
      (["plant tools"; "data"], Dir);
      (["PlantJsonExporter.dll"; "plant tools"; "data"], File "plug-in");
      (["out"; "data"], Dir);
      (["PlantJsonExporter.dll"; "out"; "data"], File "plug-in");
      (["home"], Dir);
      (["run"; "home"], Dir);
      (["Project.xml"; "run"; "home"], File "<project/>");
      ([default_acad_exe; "run"; "home"], File "host") ].

Definition w0 : World :=
  mkWorld fs0 ["run"; "home"] (list_to_map [("PATH", "/usr/bin")]) [].

(** The same machine, with the three values [main] reads set by the
    caller; the output path is the directory /data/out. *)
Definition w_main : World :=
  mkWorld fs0 ["run"; "home"]
    (list_to_map
       [ ("PATH", "/usr/bin");
         ("PLANT_PROJECT_XML", "/data/Project.xml");
         ("PLANT_JSON_OUT", "/data/out");
         ("PLANT_PLUGIN_DLL", "/data/plant tools/PlantJsonExporter.dll") ])
    [].

(** A host that ends with exit code 7 and touches nothing. *)
Definition host7 : Launch -> gmap (list string) node -> list string -> HostResult :=
  fun _ f _ => Exited 7 f.

Definition module_file0 : string := "/repo/run_export.py".

Definition nothing_started : Started := mkStarted (mkLaunch [] ∅ "") ∅.

(** The process a run started, when it started one. *)
Definition started_by (w : World) {A} (run : World * A) : Started :=
  nth (length (launched w)) (launched (fst run)) nothing_started.

(** All paths absolute. *)
Definition run_abs : World * outcome Z :=
  export_plant_json host7 "/data/Project.xml" "/data/export/plant.json"
    "/data/plant tools/PlantJsonExporter.dll" "/opt/acad" "/home/run/work" w0.

(** Project file and output given relative to the caller's directory. *)
Definition run_rel : World * outcome Z :=
  export_plant_json host7 "Project.xml" "export/plant.json"
    "/data/plant tools/PlantJsonExporter.dll" "/opt/acad" "work" w0.

(** The output path is a directory, and the plug-in lies in it. *)
Definition run_dir : World * outcome Z :=
  export_plant_json host7 "/data/Project.xml" "/data/out"
    "/data/out/PlantJsonExporter.dll" "/opt/acad" "/home/run/work" w0.


Definition run_main : World * ending := script host7 module_file0 w_main.

End Scenario.

(** ** What a run leaves in place *)

Module Effects.
Import Text Pathlib OS.

(** Every directory of [w] is a directory of [w'], seen from the same
    working directory. *)
Definition keeps_dirs (w w' : World) : Prop :=
  cwd w' = cwd w /\
  forall x, node_at (fs w) x = Some Dir -> node_at (fs w') x = Some Dir.

(** Every node of [w], file or directory, is the same in [w']. *)
Definition keeps (w w' : World) : Prop :=
  cwd w' = cwd w /\
  forall x n, node_at (fs w) x = Some n -> node_at (fs w') x = Some n.

(** The computation [c] only ever moves the world along [R]. *)
Definition along {A} (R : World -> World -> Prop) (c : M A) : Prop :=
  forall w, R w (fst (c w)).

End Effects.

(** ** More sample runs *)

Module Scenario2.
Import Text Pathlib OS RunExport Scenario.

(** A host that cannot be started, and one that never ends. *)
Definition host_denied : Launch -> gmap (list string) node -> list string -> HostResult :=
  fun l _ _ => LaunchFailed (OSError EACCES (hd "" (l_cmd l))).

Definition host_forever : Launch -> gmap (list string) node -> list string -> HostResult :=
  fun _ _ _ => Hangs.

(** A small machine: the host [/a], the project [/p] and the plug-in
    [/d], and a caller in the root directory with an empty
    environment. *)
Definition fs_small : gmap (list string) node :=
  list_to_map [ (["a"], File "h"); (["p"], File "x"); (["d"], File "d") ].

Definition w_small : World := mkWorld fs_small [] ∅ [].

(** A first run there, with absolute paths and with relative ones. *)
Definition run_small : World * outcome Z :=
  export_plant_json host7 "/p" "/o/j" "/d" "/a" "/w" w_small.

Definition run_small_rel : World * outcome Z :=
  export_plant_json host7 "p" "o/j" "d" "a" "w" w_small.

(** The machine after the first run, and a second run on it. *)
Definition w_again : World := fst run_small.

Definition run_again : World * outcome Z :=
  export_plant_json host7 "/p" "/o/j" "/d" "/a" "/w" w_again.

(** The working directory given is the host executable, a file. *)
Definition run_on_file : World * outcome Z :=
  export_plant_json host7 "/p" "/o/j" "/d" "/a" "/a" w_small.



Definition run_denied : World * outcome Z :=
  export_plant_json host_denied "/p" "/o/j" "/d" "/a" "/w" w_again.

Definition run_forever : World * outcome Z :=
  export_plant_json host_forever "/p" "/o/j" "/d" "/a" "/w" w_small.

(** A machine for [main]: the default host executable lies in the
    caller's directory, and the caller set the three variables. *)
Definition w_entry : World :=
  mkWorld (<[ [default_acad_exe] := File "h" ]> fs_small) []
    (list_to_map
       [ ("PLANT_PROJECT_XML", "/p");
         ("PLANT_JSON_OUT", "/o/j");
         ("PLANT_PLUGIN_DLL", "/d") ])
    [].

Definition run_entry : World * outcome Z := main host7 "/r/m.py" w_entry.

End Scenario2.

(** ** The default plug-in, as a value *)

Module Defaults.
Import Text Pathlib OS.

(** The path [path.resolve()] returns in the world [w]. *)
Definition resolved (w : World) (p : Path) : Path :=
  mkPath "/" (rev (resolve_from (if is_absolute p then [] else cwd w) (tail p))).

(** The plug-in of a build below the directory [dir]. *)
Definition plugin_below (dir : Path) : Path :=
  joinpath (joinpath (joinpath (joinpath (joinpath dir
    "addin") "bin") "Release") "net8.0-windows") "PlantJsonExporter.dll".

End Defaults.

(** ** Sample runs at the edges *)

Module Scenario3.
Import Text Pathlib OS RunExport Scenario Scenario2.




(** A host that a signal ended: [subprocess] reports the return code
    -9. *)
Definition host_killed : Launch -> gmap (list string) node -> list string -> HostResult :=
  fun _ f _ => Exited (-9) f.

Definition run_killed : World * ending := script host_killed "/r/m.py" w_entry.

End Scenario3.

(** * Properties *)

(** ** Text *)

Module TextFacts.
Import Text.

Lemma app_cons x (a b : string) : String x a +:+ b = String x (a +:+ b).
Proof. reflexivity. Qed.

Lemma app_nil (b : string) : "" +:+ b = b.
Proof. reflexivity. Qed.

Lemma append_assoc (a b c : string) : (a +:+ b) +:+ c = a +:+ b +:+ c.
Proof.
  induction a as [|x a IH]; [reflexivity |].
  rewrite !app_cons. now rewrite IH.
Qed.

Lemma append_nil_r (a : string) : a +:+ "" = a.
Proof.
  induction a as [|x a IH]; [reflexivity |].
  rewrite app_cons. now rewrite IH.
Qed.

Lemma has_char_app c (a b : string) :
  has_char c (a +:+ b) = has_char c a || has_char c b.
Proof.
  induction a as [|x a IH]; [reflexivity |].
  rewrite app_cons. simpl. rewrite IH. now rewrite orb_assoc.
Qed.

Lemma split_nonempty c s : split c s <> [].
Proof.
  destruct s as [|a s]; simpl; [discriminate |].
  destruct (Ascii.eqb a c); [discriminate |].
  destruct (split c s); discriminate.
Qed.

(** A field without separator, followed by a separator, is the first
    field of the split. *)
Lemma split_field c (a b : string) :
  has_char c a = false -> split c (a +:+ String c b) = a :: split c b.
Proof.
  induction a as [|x a IH]; intros H.
  - rewrite app_nil. simpl. now rewrite Ascii.eqb_refl.
  - simpl in H. apply orb_false_iff in H as [Hx Ha].
    rewrite app_cons. simpl. rewrite Hx, (IH Ha). reflexivity.
Qed.

Lemma split_single c (a : string) : has_char c a = false -> split c a = [a].
Proof.
  induction a as [|x a IH]; simpl; intros H; [reflexivity |].
  apply orb_false_iff in H as [Hx Ha].
  rewrite Hx, (IH Ha). reflexivity.
Qed.

(** The fields of a split never contain the separator. *)
Lemma split_fields_clean c s :
  Forall (fun x => has_char c x = false) (split c s).
Proof.
  induction s as [|a s IH]; simpl.
  - repeat constructor.
  - destruct (Ascii.eqb a c) eqn:E.
    + constructor; [reflexivity | exact IH].
    + destruct (split c s) as [|h t].
      * repeat constructor. simpl. now rewrite E.
      * inversion IH; subst.
        constructor; [simpl; now rewrite E | assumption].
Qed.

(** Nor any character the text does not contain. *)
Lemma split_fields_without d c s :
  has_char d s = false -> Forall (fun x => has_char d x = false) (split c s).
Proof.
  induction s as [|a s IH]; simpl; intros H.
  - repeat constructor.
  - apply orb_false_iff in H as [Ha Hs]. specialize (IH Hs).
    destruct (Ascii.eqb a c).
    + constructor; [reflexivity | exact IH].
    + destruct (split c s) as [|h t].
      * repeat constructor. simpl. now rewrite Ha.
      * inversion IH; subst. constructor; [simpl; now rewrite Ha | assumption].
Qed.

Lemma join_without d sep (l : list string) :
  has_char d sep = false ->
  Forall (fun x => has_char d x = false) l ->
  has_char d (join sep l) = false.
Proof.
  intros Hsep. induction 1 as [|x l Hx Hl IH]; [reflexivity |].
  destruct l as [|y l]; [exact Hx |].
  change (join sep (x :: y :: l)) with (x +:+ sep +:+ join sep (y :: l)).
  rewrite !has_char_app, Hx, Hsep, IH. reflexivity.
Qed.

Lemma split_unlines (ls : list string) :
  Forall (fun x => has_char LF x = false) ls ->
  split LF (unlines ls) = (ls ++ [""])%list.
Proof.
  induction 1 as [|x ls Hx Hls IH]; [reflexivity |].
  simpl unlines. unfold nl. rewrite app_cons, app_nil.
  rewrite (split_field LF x (unlines ls) Hx), IH. reflexivity.
Qed.

(** Reading back the lines of a text written line by line. *)
Lemma lines_unlines (ls : list string) :
  Forall (fun x => has_char LF x = false) ls -> lines (unlines ls) = ls.
Proof.
  intros H. unfold lines. rewrite (split_unlines ls H).
  rewrite last_snoc. apply removelast_last.
Qed.

End TextFacts.

(** ** Paths *)

Module PathFacts.
Import Text Pathlib TextFacts.

Lemma splitroot_root s :
  fst (splitroot s) = "" \/ fst (splitroot s) = "/" \/ fst (splitroot s) = "//".
Proof.
  destruct s as [|a [|b [|c s]]]; simpl; auto;
    repeat match goal with
           | |- context [Ascii.eqb ?x slash] => destruct (Ascii.eqb x slash); simpl
           end; auto.
Qed.

Lemma splitroot_without d s :
  has_char d s = false -> has_char d (snd (splitroot s)) = false.
Proof.
  destruct s as [|a [|b [|c s]]]; simpl; auto;
    repeat match goal with
           | |- context [Ascii.eqb ?x slash] => destruct (Ascii.eqb x slash); simpl
           end; auto; intros H;
    repeat (apply orb_false_iff in H as [? H]); auto;
    repeat (apply orb_false_iff; split); auto.
Qed.

Lemma parse_tail s :
  tail (parse s) =
  filter (fun x => keep_part x = true) (split slash (snd (splitroot s))).
Proof.
  destruct s as [|a s]; [reflexivity |].
  unfold parse. destruct (splitroot (String a s)); reflexivity.
Qed.

Lemma parse_root s : root (parse s) = fst (splitroot s).
Proof.
  destruct s as [|a s]; [reflexivity |].
  unfold parse. destruct (splitroot (String a s)); reflexivity.
Qed.

Lemma Forall_filter_keep (P : string -> Prop) (l : list string) :
  Forall P l ->
  Forall (fun x => keep_part x = true /\ P x)
         (filter (fun x => keep_part x = true) l).
Proof.
  induction 1 as [|x l Hx Hl IH]; [constructor |].
  rewrite filter_cons. case_decide; [constructor; auto | exact IH].
Qed.

(** Whatever the text, [Path(text)] is well formed. *)
Lemma parse_wf s : wf (parse s).
Proof.
  split.
  - rewrite parse_root. apply splitroot_root.
  - rewrite parse_tail. apply Forall_filter_keep, split_fields_clean.
Qed.

Lemma filter_keep_id (l : list string) :
  Forall wf_part l -> filter (fun x => keep_part x = true) l = l.
Proof.
  induction 1 as [|x l [Hx _] Hl IH]; [reflexivity |].
  rewrite filter_cons. case_decide; [now rewrite IH | contradiction].
Qed.

Lemma wf_part_shape x :
  wf_part x -> exists a rest, x = String a rest /\ Ascii.eqb a slash = false.
Proof.
  intros [Hk Hs]. destruct x as [|a rest]; [discriminate Hk |].
  exists a, rest. split; [reflexivity |].
  simpl in Hs. now apply orb_false_iff in Hs as [? _].
Qed.

Lemma split_join (l : list string) :
  l <> [] -> Forall (fun x => has_char slash x = false) l ->
  split slash (join "/" l) = l.
Proof.
  intros Hne H. induction H as [|x l Hx Hl IH]; [contradiction |].
  destruct l as [|y l].
  - apply split_single, Hx.
  - change (join "/" (x :: y :: l))
      with (x +:+ String slash (join "/" (y :: l))).
    rewrite (split_field slash x _ Hx), IH; [reflexivity | discriminate].
Qed.

(** Joining well-formed components and parsing them again. *)
Lemma rejoin (t : list string) :
  Forall wf_part t ->
  no_lead_slash (join "/" t) /\
  filter (fun x => keep_part x = true) (split slash (join "/" t)) = t.
Proof.
  intros Ht. destruct t as [|x t]; [split; [exact I | reflexivity] |].
  split.
  - inversion Ht as [|? ? Hx _]; subst.
    destruct (wf_part_shape x Hx) as (a & rest & -> & Ha).
    destruct t; simpl; exact Ha.
  - rewrite split_join; [now apply filter_keep_id | discriminate |].
    eapply Forall_impl; [exact Ht |]. now intros ? [_ ?].
Qed.

Lemma parse_relative s :
  s <> "" -> no_lead_slash s ->
  parse s = mkPath "" (filter (fun x => keep_part x = true) (split slash s)).
Proof.
  destruct s as [|a s]; [contradiction |]. intros _ Ha. simpl in Ha.
  unfold parse, splitroot. now rewrite Ha.
Qed.

Lemma parse_rooted s :
  no_lead_slash s ->
  parse (String slash s) =
  mkPath "/" (filter (fun x => keep_part x = true) (split slash s)).
Proof.
  destruct s as [|a s]; [reflexivity |]. intros Ha. simpl in Ha.
  unfold parse, splitroot. rewrite Ascii.eqb_refl, Ha. reflexivity.
Qed.

Lemma parse_rooted2 s :
  no_lead_slash s ->
  parse (String slash (String slash s)) =
  mkPath "//" (filter (fun x => keep_part x = true) (split slash s)).
Proof.
  destruct s as [|a s]; [reflexivity |]. intros Ha. simpl in Ha.
  unfold parse, splitroot. rewrite !Ascii.eqb_refl, Ha. reflexivity.
Qed.

(** [Path(str(p)) == p]. *)
Lemma parse_str (p : Path) : wf p -> parse (str p) = p.
Proof.
  destruct p as [r t]. intros [Hr Ht]. simpl in Hr, Ht.
  destruct (rejoin t Ht) as [Hlead Htail].
  unfold str. simpl root. simpl tail.
  destruct Hr as [-> | [-> | ->]].
  - rewrite app_nil. destruct (join "/" t) as [|a s] eqn:E.
    + destruct t as [|x t]; [reflexivity |]. simpl in Htail. discriminate.
    + simpl String.eqb. cbv iota. rewrite parse_relative; [| discriminate | exact Hlead].
      now rewrite Htail.
  - change ("/" +:+ join "/" t) with (String slash (join "/" t)).
    simpl String.eqb. cbv iota. rewrite parse_rooted by exact Hlead. now rewrite Htail.
  - change ("//" +:+ join "/" t) with (String slash (String slash (join "/" t))).
    simpl String.eqb. cbv iota. rewrite parse_rooted2 by exact Hlead. now rewrite Htail.
Qed.

Lemma str_inj (p q : Path) : wf p -> wf q -> str p = str q -> p = q.
Proof.
  intros Hp Hq E. rewrite <- (parse_str p Hp), <- (parse_str q Hq).
  now rewrite E.
Qed.

(** Converting twice changes nothing. *)
Lemma parse_str_parse s : parse (str (parse s)) = parse s.
Proof. apply parse_str, parse_wf. Qed.

Lemma joinpath_wf (p : Path) (name : string) :
  wf p -> wf_part name -> wf (joinpath p name).
Proof.
  intros [Hr Ht] Hn. split; [exact Hr |].
  simpl. apply Forall_app. split; [exact Ht |].
  constructor; [exact Hn | constructor].
Qed.

Lemma str_joinpath_neq (p : Path) (name : string) :
  wf p -> wf_part name -> str (joinpath p name) <> str p.
Proof.
  intros Hp Hn E.
  apply str_inj in E; [| now apply joinpath_wf | exact Hp].
  apply (f_equal (fun q => length (tail q))) in E.
  simpl in E. rewrite length_app in E. simpl in E. lia.
Qed.

(** A character other than the slash and the dot that is not in the
    text is not in the converted path either. *)
Lemma str_parse_without d s :
  has_char d "/" = false -> has_char d "." = false ->
  has_char d s = false -> has_char d (str (parse s)) = false.
Proof.
  intros Hslash Hdot Hs. unfold str.
  destruct (String.eqb _ _); [exact Hdot |].
  rewrite has_char_app. apply orb_false_iff. split.
  - rewrite parse_root.
    destruct (splitroot_root s) as [-> | [-> | ->]];
      [reflexivity | exact Hslash |].
    simpl in *. rewrite orb_false_r in Hslash. now rewrite Hslash.
  - apply join_without; [exact Hslash |].
    rewrite parse_tail.
    eapply Forall_impl;
      [apply Forall_filter_keep, (split_fields_without d slash) |].
    + apply splitroot_without, Hs.
    + now intros ? [_ ?].
Qed.

Lemma join_snoc (t : list string) (n : string) :
  t <> [] -> join "/" (t ++ [n]) = join "/" t +:+ "/" +:+ n.
Proof.
  induction t as [|x t IH]; [contradiction |]. intros _.
  destruct t as [|y t]; [reflexivity |].
  change (join "/" ((x :: y :: t) ++ [n]))
    with (x +:+ "/" +:+ join "/" ((y :: t) ++ [n])).
  rewrite IH by discriminate.
  change (join "/" (x :: y :: t)) with (x +:+ "/" +:+ join "/" (y :: t)).
  now rewrite !append_assoc.
Qed.

Lemma app_cons_nonempty (r : string) a rest :
  String.eqb (r +:+ String a rest) "" = false.
Proof. destruct r; reflexivity. Qed.

(** Below a path with a component, [path / name] reads as the path, a
    slash and the name. *)
Lemma str_joinpath (p : Path) (n : string) :
  wf p -> tail p <> [] -> str (joinpath p n) = str p +:+ "/" +:+ n.
Proof.
  destruct p as [r t]. intros [_ Ht] Hne. simpl in Ht, Hne.
  unfold str, joinpath. simpl root. simpl tail. cbv zeta.
  rewrite (join_snoc t n Hne).
  destruct t as [|x t]; [contradiction |].
  inversion Ht as [|? ? Hx _]; subst.
  destruct (wf_part_shape x Hx) as (a & rest & -> & _).
  assert (E : exists rest', join "/" (String a rest :: t) = String a rest').
  { destruct t; simpl; eauto. }
  destruct E as [rest' ->].
  rewrite (app_cons_nonempty r a rest').
  change (String a rest' +:+ "/" +:+ n) with (String a (rest' +:+ "/" +:+ n)).
  rewrite app_cons_nonempty.
  now rewrite append_assoc.
Qed.

End PathFacts.

(** ** The operating system *)

Module OSFacts.
Import Text Pathlib OS.

Lemma frame_refl w : frame w w.
Proof. repeat split. Qed.

Lemma frame_trans w1 w2 w3 : frame w1 w2 -> frame w2 w3 -> frame w1 w3.
Proof. unfold frame. intros (-> & -> & ->) (-> & -> & ->). repeat split. Qed.

Lemma frame_set_fs w f : frame w (set_fs w f).
Proof. repeat split. Qed.

#[local] Hint Resolve frame_refl frame_set_fs : core.

Lemma quiet_bind {A B} (c : M A) (k : A -> M B) :
  quiet c -> (forall a, quiet (k a)) -> quiet (bind c k).
Proof.
  intros Hc Hk w. unfold bind.
  destruct (Hc w) as [Hf Hh]. destruct (c w) as [w1 [a | e |]]; simpl in *.
  - destruct (Hk a w1) as [Hf' Hh']. split; [| exact Hh'].
    eapply frame_trans; eassumption.
  - split; [exact Hf | discriminate].
  - contradiction.
Qed.

Lemma os_mkdir_quiet p : quiet (os_mkdir p).
Proof.
  intros w. unfold os_mkdir.
  destruct (locate w p) as [l | | |]; [destruct (node_at (fs w) l) |..];
    simpl; split; auto; discriminate.
Qed.

Lemma is_dir_quiet p : quiet (is_dir p).
Proof.
  intros w. unfold is_dir.
  destruct (stat w p) as [[] | e]; [| | destruct (ignore_error e)];
    simpl; split; auto; discriminate.
Qed.

Lemma exists_quiet p : quiet (exists_ p).
Proof.
  intros w. unfold exists_.
  destruct (stat w p) as [n | e]; [| destruct (ignore_error e)];
    simpl; split; auto; discriminate.
Qed.

(** Where nothing is in the way of the check, [exists()] and [is_dir()]
    answer. *)
Lemma exists_true p w : path_exists w p = true -> exists_ p w = (w, Return true).
Proof.
  unfold path_exists, exists_. destruct (stat w p); [trivial | discriminate].
Qed.

Lemma is_dir_true p w : path_is_dir w p = true -> is_dir p w = (w, Return true).
Proof.
  unfold path_is_dir, is_dir.
  destruct (stat w p) as [[] | e]; [trivial | discriminate..].
Qed.

Lemma is_dir_Return p w w' b :
  is_dir p w = (w', Return b) -> w' = w /\ b = path_is_dir w p.
Proof.
  unfold path_is_dir, is_dir.
  destruct (stat w p) as [[] | e]; [| | destruct (ignore_error e)];
    intros [= <- <-]; auto.
Qed.

(** The cases after a failed [os.mkdir], where [is_dir()] decides. *)
Ltac after_is_dir Hf :=
  match goal with
  | |- context [is_dir ?p ?w1] =>
      let Hq := fresh "Hq" in
      let Hn := fresh "Hn" in
      destruct (is_dir_quiet p w1) as [Hq Hn];
      destruct (is_dir p w1) as [? [[] | ? |]]; simpl in Hq, Hn |- *;
      try contradiction;
      (split; [eapply frame_trans; [exact Hf | exact Hq] | discriminate])
  end.

Ltac quiet_leaf Hf :=
  simpl in Hf |- *; try contradiction;
  first [ split; [exact Hf | discriminate] | after_is_dir Hf ].

Lemma mkdir_exist_ok_quiet p : quiet (mkdir_exist_ok p).
Proof.
  intros w. unfold mkdir_exist_ok.
  destruct (os_mkdir_quiet p w) as [Hf Hh].
  destruct (os_mkdir p w) as [w1 [[] | [a | [] f] |]]; quiet_leaf Hf.
Qed.

(** One step of [mkdir(parents=True, exist_ok=True)]. *)
Lemma mkdir_parents_rev_step r rt w :
  mkdir_parents_rev r rt w =
  let p := mkPath r (rev rt) in
  match os_mkdir p w with
  | (w1, Raise (OSError ENOENT f)) =>
      match rt with
      | [] => (w1, Raise (OSError ENOENT f))
      | _ :: rt' => (exec mkdir_parents_rev r rt'; mkdir_exist_ok p) w1
      end
  | (w1, Raise e) =>
      match is_dir p w1 with
      | (w2, Return true) => (w2, Return tt)
      | (w2, Return false) => (w2, Raise e)
      | (w2, Raise e') => (w2, Raise e')
      | (w2, Hang) => (w2, Hang)
      end
  | r => r
  end.
Proof. destruct rt; reflexivity. Qed.

Lemma mkdir_parents_rev_quiet r rt : quiet (mkdir_parents_rev r rt).
Proof.
  induction rt as [|c rt IH]; intros w; rewrite mkdir_parents_rev_step;
    cbv zeta.
  - destruct (os_mkdir_quiet (mkPath r (rev [])) w) as [Hf Hh].
    destruct (os_mkdir (mkPath r (rev [])) w) as [w1 [[] | [a | [] f] |]];
      quiet_leaf Hf.
  - destruct (os_mkdir_quiet (mkPath r (rev (c :: rt))) w) as [Hf Hh].
    destruct (os_mkdir (mkPath r (rev (c :: rt))) w) as [w1 [[] | [a | [] f] |]];
      try solve [quiet_leaf Hf].
    destruct (quiet_bind (mkdir_parents_rev r rt)
                (fun _ => mkdir_exist_ok (mkPath r (rev (c :: rt))))
                IH (fun _ => mkdir_exist_ok_quiet _) w1) as [Hf' Hh'].
    simpl in Hf.
    split; [eapply frame_trans; eassumption | exact Hh'].
Qed.

Lemma mkdir_quiet p : quiet (mkdir p).
Proof. apply mkdir_parents_rev_quiet. Qed.

Lemma write_text_quiet p data : quiet (write_text p data).
Proof.
  intros w. unfold write_text.
  destruct (locate w p) as [l | | |];
    [destruct (node_at (fs w) l) as [[] |] |..];
    simpl; split; auto; discriminate.
Qed.

(** Resolution only asks where the directories are. *)
Lemma walk_stable f f' cur comps k :
  (forall x, node_at f x = Some Dir -> node_at f' x = Some Dir) ->
  walk f cur comps = At k -> walk f' cur comps = At k.
Proof.
  intros Hd. revert cur. induction comps as [|c rest IH]; intros cur; simpl.
  - trivial.
  - destruct (node_at f cur) as [[] |] eqn:E; try discriminate.
    rewrite (Hd _ E).
    destruct (NAME_MAX <? String.length c)%nat; [discriminate | apply IH].
Qed.

Lemma node_at_insert_file f l data x :
  node_at f l <> Some Dir ->
  node_at f x = Some Dir -> node_at (<[l := File data]> f) x = Some Dir.
Proof.
  intros Hl Hx. destruct x as [|c x]; [reflexivity |].
  simpl in *. rewrite lookup_insert_ne; [exact Hx |].
  intros ->. apply Hl. exact Hx.
Qed.

(** A path the system resolves is shorter than [PATH_MAX], and resolves
    by the walk along its components. *)
Lemma locate_At w p l :
  locate w p = At l ->
  (PATH_MAX <=? String.length (str p))%nat = false /\
  walk (fs w) (if is_absolute p then [] else cwd w) (tail p) = At l.
Proof.
  unfold locate.
  destruct (PATH_MAX <=? String.length (str p))%nat; [discriminate | auto].
Qed.

(** A text that was written is the text of the file. *)
Lemma write_text_read p data w w' :
  write_text p data w = (w', Return tt) ->
  read_text (fs w') (cwd w) p = Some data.
Proof.
  unfold write_text.
  destruct (locate w p) as [l | | |] eqn:El0; try discriminate.
  apply locate_At in El0 as [_ Ew].
  assert (Hput : node_at (fs w) l <> Some Dir ->
                 read_text (<[l := File data]> (fs w)) (cwd w) p = Some data).
  { intros Hl. unfold read_text.
    rewrite (walk_stable (fs w) _ _ _ l (fun x => node_at_insert_file _ l data x Hl) Ew).
    destruct l as [|c l]; [now elim Hl |].
    simpl. now rewrite lookup_insert_eq. }
  destruct (node_at (fs w) l) as [[] |] eqn:El; intros [= <-]; simpl;
    apply Hput; congruence.
Qed.

End OSFacts.

(** ** The program *)

Module RunExportFacts.
Import Text Pathlib OS RunExport Defaults TextFacts PathFacts OSFacts.

Lemma snoc_neq {A} (l : list A) (x : A) : l <> (l ++ [x])%list.
Proof.
  intros E. apply (f_equal (@length A)) in E.
  rewrite length_app in E. simpl in E. lia.
Qed.

Lemma snoc_inj {A} (l : list A) (x y : A) :
  (l ++ [x])%list = (l ++ [y])%list -> x = y.
Proof. intros E. apply app_inv_head in E. now injection E. Qed.

Lemma first_missing_None w a b c :
  first_missing w a b c = None <->
  path_exists w a = true /\ path_exists w b = true /\ path_exists w c = true.
Proof.
  unfold first_missing. simpl.
  destruct (path_exists w a), (path_exists w b), (path_exists w c); simpl;
    split; try discriminate; intuition discriminate.
Qed.


Lemma check_None w p : check w p = None <-> path_exists w p = true.
Proof.
  unfold check, path_exists. destruct (stat w p); split; congruence.
Qed.

(** What a failed check raises names the path checked. *)
Lemma check_Some w p e :
  check w p = Some e ->
  path_exists w p = false /\ exn_path e = str p /\
  (e = FileNotFoundError (str p) \/
   exists err, stat w p = inr err /\ ignore_error err = false /\
               e = OSError err (str p)).
Proof.
  unfold check, path_exists. destruct (stat w p) as [n | err]; [discriminate |].
  destruct (ignore_error err) eqn:Ei; intros [= <-]; repeat split; eauto.
Qed.

Lemma rejection_None w a b c :
  rejection w a b c = None <-> first_missing w a b c = None.
Proof.
  rewrite first_missing_None, <- !check_None. unfold rejection.
  destruct (check w a), (check w b), (check w c); split; intros H;
    try discriminate; try (destruct H as (? & ? & ?); discriminate); auto.
Qed.

(** The check that fails first is the check of the first missing
    path. *)
Lemma first_missing_rejection w a b c p :
  first_missing w a b c = Some p ->
  exists e, rejection w a b c = Some e /\ check w p = Some e.
Proof.
  unfold rejection, first_missing. simpl.
  pose proof (check_None w a) as Ha. pose proof (check_None w b) as Hb.
  pose proof (check_None w c) as Hc.
  destruct (path_exists w a) eqn:Ea; simpl.
  - destruct Ha as [_ Ha]. rewrite (Ha eq_refl).
    destruct (path_exists w b) eqn:Eb; simpl.
    + destruct Hb as [_ Hb]. rewrite (Hb eq_refl).
      destruct (path_exists w c) eqn:Ec; simpl; [discriminate |].
      intros [= <-]. destruct (check w c) as [e |] eqn:E; [eauto |].
      destruct Hc as [Hc _]. specialize (Hc eq_refl). discriminate.
    + intros [= <-]. destruct (check w b) as [e |] eqn:E; [eauto |].
      destruct Hb as [Hb _]. specialize (Hb eq_refl). discriminate.
  - intros [= <-]. destruct (check w a) as [e |] eqn:E; [eauto |].
    destruct Ha as [Ha _]. specialize (Ha eq_refl). discriminate.
Qed.

(** One check: either it raises, or the run goes on. *)
Lemma bind_check {B} p (k : M B) w :
  (do found <- exists_ p;
   if negb found then raise (FileNotFoundError (str p)) else k) w =
  match check w p with
  | Some e => (w, Raise e)
  | None => k w
  end.
Proof.
  unfold bind, exists_, check, raise.
  destruct (stat w p) as [n | err]; [reflexivity |].
  destruct (ignore_error err); reflexivity.
Qed.

Section Runs.
Variable host : Launch -> gmap (list string) node -> list string -> HostResult.

(** A run is its three checks, then the two [mkdir], the write and the
    launch. *)
Lemma export_checks project_xml out_json plugin_dll acad_exe workdir w :
  export_plant_json host project_xml out_json plugin_dll acad_exe workdir w =
  match rejection w (parse acad_exe) (parse project_xml) (parse plugin_dll) with
  | Some e => (w, Raise e)
  | None =>
      (exec mkdir (parse workdir);
       exec mkdir (parent (parse out_json));
       exec write_text (joinpath (parse workdir) "run.scr")
              (scr_text (parse plugin_dll));
       do env <- environ_copy;
       do returncode <-
         subprocess_run host
           [ str (parse acad_exe); "/product"; "PLNT3D"; "/b";
             str (joinpath (parse workdir) "run.scr") ]
           (<["PLANT_JSON_OUT" := str (parse out_json)]>
              (<["PLANT_PROJECT_XML" := str (parse project_xml)]> env))
           (str (parse workdir));
       ret returncode) w
  end.
Proof.
  unfold export_plant_json, rejection. cbv zeta.
  rewrite bind_check. destruct (check w (parse acad_exe)); [reflexivity |].
  rewrite bind_check. destruct (check w (parse project_xml)); [reflexivity |].
  rewrite bind_check. destruct (check w (parse plugin_dll)); reflexivity.
Qed.

(** A check that fails ends the run, with nothing done. *)
Lemma export_rejected project_xml out_json plugin_dll acad_exe workdir w e :
  rejection w (parse acad_exe) (parse project_xml) (parse plugin_dll)
    = Some e ->
  export_plant_json host project_xml out_json plugin_dll acad_exe workdir w
    = (w, Raise e).
Proof. intros H. now rewrite export_checks, H. Qed.

(** With an input missing the run stops at the check of the first
    missing one, having done nothing; the exception names that path. *)
Lemma export_missing project_xml out_json plugin_dll acad_exe workdir w p :
  first_missing w (parse acad_exe) (parse project_xml) (parse plugin_dll)
    = Some p ->
  exists e,
    export_plant_json host project_xml out_json plugin_dll acad_exe workdir w
      = (w, Raise e) /\
    check w p = Some e.
Proof.
  intros Hm. destruct (first_missing_rejection _ _ _ _ _ Hm) as (e & Hr & Hc).
  exists e. split; [now apply export_rejected | exact Hc].
Qed.

(** With its inputs present, a run is the two [mkdir], the write and
    the launch. *)
Lemma export_steps project_xml out_json plugin_dll acad_exe workdir w :
  first_missing w (parse acad_exe) (parse project_xml) (parse plugin_dll)
    = None ->
  export_plant_json host project_xml out_json plugin_dll acad_exe workdir w =
  (exec mkdir (parse workdir);
   exec mkdir (parent (parse out_json));
   exec write_text (joinpath (parse workdir) "run.scr")
          (scr_text (parse plugin_dll));
   do env <- environ_copy;
   do returncode <-
     subprocess_run host
       [ str (parse acad_exe); "/product"; "PLNT3D"; "/b";
         str (joinpath (parse workdir) "run.scr") ]
       (<["PLANT_JSON_OUT" := str (parse out_json)]>
          (<["PLANT_PROJECT_XML" := str (parse project_xml)]> env))
       (str (parse workdir));
   ret returncode) w.
Proof.
  intros H. apply rejection_None in H. now rewrite export_checks, H.
Qed.

(** With all inputs present the run either fails before the host is
    started, or starts it once, on the script it has just written. *)
Lemma export_present project_xml out_json plugin_dll acad_exe workdir w w' r :
  first_missing w (parse acad_exe) (parse project_xml) (parse plugin_dll)
    = None ->
  export_plant_json host project_xml out_json plugin_dll acad_exe workdir w
    = (w', r) ->
  cwd w' = cwd w /\ environ w' = environ w /\
  ((launched w' = launched w /\ exists e, r = Raise e) \/
   exists s,
     launched w' = (launched w ++ [s])%list /\
     st_launch s =
       mkLaunch
         [ str (parse acad_exe); "/product"; "PLNT3D"; "/b";
           str (joinpath (parse workdir) "run.scr") ]
         (<["PLANT_JSON_OUT" := str (parse out_json)]>
            (<["PLANT_PROJECT_XML" := str (parse project_xml)]> (environ w)))
         (str (parse workdir)) /\
     read_text (st_fs s) (cwd w) (joinpath (parse workdir) "run.scr")
       = Some (scr_text (parse plugin_dll)) /\
     ((exists n, host (st_launch s) (st_fs s) (cwd w) = Exited n (fs w') /\
                 r = Return n) \/
      (host (st_launch s) (st_fs s) (cwd w) = Hangs /\ r = Hang))).
Proof.
  intros Hnone. rewrite (export_steps _ _ _ _ _ _ Hnone).
  unfold bind, ret, environ_copy.
  destruct (mkdir_quiet (parse workdir) w) as [F1 N1].
  destruct (mkdir (parse workdir) w) as [w1 [[] | e1 |]]; simpl in F1, N1;
    [| intros [= <- <-]; destruct F1 as (? & ? & ?); eauto 8 | contradiction].
  destruct (mkdir_quiet (parent (parse out_json)) w1) as [F2 N2].
  destruct (mkdir (parent (parse out_json)) w1) as [w2 [[] | e2 |]];
    simpl in F2, N2;
    [| intros [= <- <-];
       destruct (frame_trans _ _ _ F1 F2) as (? & ? & ?); eauto 8
     | contradiction].
  pose proof (frame_trans _ _ _ F1 F2) as F12.
  destruct (write_text_quiet (joinpath (parse workdir) "run.scr")
              (scr_text (parse plugin_dll)) w2) as [F3 N3].
  destruct (write_text (joinpath (parse workdir) "run.scr")
              (scr_text (parse plugin_dll)) w2) as [w3 [[] | e3 |]] eqn:E3;
    simpl in F3, N3;
    [| intros [= <- <-];
       destruct (frame_trans _ _ _ F12 F3) as (? & ? & ?); eauto 8
     | contradiction].
  apply write_text_read in E3.
  destruct (frame_trans _ _ _ F12 F3) as (Hcwd & Henv & Hlog).
  destruct F12 as (Hcwd2 & _ & _). rewrite Hcwd2 in E3.
  unfold subprocess_run. rewrite Hcwd, Henv, Hlog.
  match goal with
  | |- context [host ?l ?f ?c] => destruct (host l f c) as [n f' | e |] eqn:Eh
  end; intros [= <- <-]; simpl.
  - split; [reflexivity |]. split; [reflexivity |]. right.
    eexists. split; [reflexivity |]. simpl.
    split; [reflexivity |]. split; [exact E3 |]. left. eauto.
  - split; [exact Hcwd |]. split; [exact Henv |]. left. eauto.
  - split; [reflexivity |]. split; [reflexivity |]. right.
    eexists. split; [reflexivity |]. simpl.
    split; [reflexivity |]. split; [exact E3 |]. right. auto.
Qed.

(** A run that started the host had all its inputs, and the host got
    the script, the command line and the environment below. *)
Lemma export_started project_xml out_json plugin_dll acad_exe workdir w w' r s :
  export_plant_json host project_xml out_json plugin_dll acad_exe workdir w
    = (w', r) ->
  launched w' = (launched w ++ [s])%list ->
  st_launch s =
    mkLaunch
      [ str (parse acad_exe); "/product"; "PLNT3D"; "/b";
        str (joinpath (parse workdir) "run.scr") ]
      (<["PLANT_JSON_OUT" := str (parse out_json)]>
         (<["PLANT_PROJECT_XML" := str (parse project_xml)]> (environ w)))
      (str (parse workdir)) /\
  read_text (st_fs s) (cwd w) (joinpath (parse workdir) "run.scr")
    = Some (scr_text (parse plugin_dll)) /\
  ((exists n, host (st_launch s) (st_fs s) (cwd w) = Exited n (fs w') /\
              r = Return n) \/
   (host (st_launch s) (st_fs s) (cwd w) = Hangs /\ r = Hang)).
Proof.
  intros Hrun Hlog.
  destruct (first_missing w (parse acad_exe) (parse project_xml)
              (parse plugin_dll)) as [p |] eqn:Hm.
  - destruct (export_missing project_xml out_json plugin_dll acad_exe workdir w p Hm) as (e0 & He0 & _).
    rewrite He0 in Hrun.
    injection Hrun as <- _. now apply snoc_neq in Hlog.
  - destruct (export_present _ _ _ _ _ _ _ _ Hm Hrun)
      as (_ & _ & [[Hsame _] | (s0 & Hlog0 & Hrest)]).
    + rewrite Hsame in Hlog. now apply snoc_neq in Hlog.
    + rewrite Hlog0 in Hlog. apply snoc_inj in Hlog as ->. exact Hrest.
Qed.

(** A run that returned started the host. *)
Lemma export_returned project_xml out_json plugin_dll acad_exe workdir w w' n :
  export_plant_json host project_xml out_json plugin_dll acad_exe workdir w
    = (w', Return n) ->
  exists s, launched w' = (launched w ++ [s])%list.
Proof.
  intros Hrun.
  destruct (first_missing w (parse acad_exe) (parse project_xml)
              (parse plugin_dll)) as [p |] eqn:Hm.
  - destruct (export_missing project_xml out_json plugin_dll acad_exe workdir w p Hm) as (e0 & He0 & _).
    rewrite He0 in Hrun. discriminate.
  - destruct (export_present _ _ _ _ _ _ _ _ Hm Hrun)
      as (_ & _ & [[_ [e He]] | (s & Hlog & _)]); [discriminate | eauto].
Qed.

(** No run touches the caller's environment or working directory. *)
Lemma export_keeps project_xml out_json plugin_dll acad_exe workdir w w' r :
  export_plant_json host project_xml out_json plugin_dll acad_exe workdir w
    = (w', r) ->
  cwd w' = cwd w /\ environ w' = environ w.
Proof.
  intros Hrun.
  destruct (first_missing w (parse acad_exe) (parse project_xml)
              (parse plugin_dll)) as [p |] eqn:Hm.
  - destruct (export_missing project_xml out_json plugin_dll acad_exe workdir w p Hm) as (e0 & He0 & _).
    rewrite He0 in Hrun.
    injection Hrun as <- _. auto.
  - destruct (export_present _ _ _ _ _ _ _ _ Hm Hrun) as (? & ? & _). auto.
Qed.

Variable module_file : string.

(** [main] reads its three values, asks whether the output path is a
    directory, and calls [export_plant_json]. *)
Lemma main_eq w :
  main host module_file w =
  match is_dir (parse (default default_out_json (environ w !! "PLANT_JSON_OUT")))
          w with
  | (w1, Return isdir) =>
      export_plant_json host
        (default default_project_xml (environ w !! "PLANT_PROJECT_XML"))
        (let out_json :=
           default default_out_json (environ w !! "PLANT_JSON_OUT") in
         if isdir then str (joinpath (parse out_json) "plant_export.json")
         else out_json)
        (default (str (plugin_below (parent (resolved w (parse module_file)))))
           (environ w !! "PLANT_PLUGIN_DLL"))
        default_acad_exe default_workdir w1
  | (w1, Raise e) => (w1, Raise e)
  | (w1, Hang) => (w1, Hang)
  end.
Proof. reflexivity. Qed.

(** When [main] started the host, it did so through this call. *)
Lemma main_started w w' r s :
  main host module_file w = (w', r) ->
  launched w' = (launched w ++ [s])%list ->
  export_plant_json host
    (default default_project_xml (environ w !! "PLANT_PROJECT_XML"))
    (let out_json := default default_out_json (environ w !! "PLANT_JSON_OUT") in
     if path_is_dir w (parse out_json)
     then str (joinpath (parse out_json) "plant_export.json")
     else out_json)
    (default (str (plugin_below (parent (resolved w (parse module_file)))))
       (environ w !! "PLANT_PLUGIN_DLL"))
    default_acad_exe default_workdir w = (w', r).
Proof.
  intros Hmain Hlog. rewrite main_eq in Hmain. cbv zeta.
  set (out_json := default default_out_json (environ w !! "PLANT_JSON_OUT"))
    in *.
  destruct (is_dir_quiet (parse out_json) w) as [Hf Hn].
  destruct (is_dir (parse out_json) w) as [w1 [isdir | e |]] eqn:E;
    simpl in Hf, Hn.
  - apply is_dir_Return in E as [-> ->]. exact Hmain.
  - injection Hmain as <- _. destruct Hf as (_ & _ & Hl).
    rewrite Hl in Hlog. now apply snoc_neq in Hlog.
  - contradiction.
Qed.

(** When the question itself fails, [main] ends there. *)
Lemma main_is_dir_raises w e :
  is_dir (parse (default default_out_json (environ w !! "PLANT_JSON_OUT"))) w
    = (w, Raise e) ->
  main host module_file w = (w, Raise e).
Proof. intros H. now rewrite main_eq, H. Qed.

End Runs.

End RunExportFacts.

(** ** The specification, claim by claim *)

Module Spec.
Import Text Pathlib OS RunExport Scenario Scenario2 Scenario3.
Import TextFacts PathFacts OSFacts RunExportFacts.

(** *** The script *)

Lemma scr_text_unlines (p : Path) :
  scr_text p =
  unlines [ "_.NETLOAD"; dq +:+ str p +:+ dq; "_.EXPORTPLANTJSON"; "_.QUIT"; "Y" ].
Proof.
  unfold scr_text. simpl join. simpl unlines.
  rewrite !append_assoc. rewrite append_nil_r. reflexivity.
Qed.

(** C1, as the specification states it, fails: for a plug-in path with
    embedded spaces the script has five lines, not four. *)
Lemma script_line_count_example :
  read_text (st_fs (started_by w0 run_abs)) (cwd w0)
    (joinpath (parse "/home/run/work") "run.scr")
    = Some (scr_text (parse "/data/plant tools/PlantJsonExporter.dll")) /\
  length (lines (scr_text (parse "/data/plant tools/PlantJsonExporter.dll")))
    <> 4.
Proof. split; vm_compute; [reflexivity | discriminate]. Qed.

(** C1, amended: for every plug-in path without a line break, the script
    that [export_plant_json] hands to the host has exactly five lines, in
    this order: the load command [_.NETLOAD], the plug-in path between
    double quotes (spaces included) on a line of its own, the export
    command, the quit command and the confirmation [Y]; every line, the
    last one too, ends with a line feed, and the file holds this text as
    it is. *)
Theorem script_five_lines
    host project_xml out_json plugin_dll acad_exe workdir w w' r s :
  has_char LF plugin_dll = false ->
  export_plant_json host project_xml out_json plugin_dll acad_exe workdir w
    = (w', r) ->
  launched w' = (launched w ++ [s])%list ->
  let script_lines :=
    [ "_.NETLOAD"; dq +:+ str (parse plugin_dll) +:+ dq;
      "_.EXPORTPLANTJSON"; "_.QUIT"; "Y" ] in
  read_text (st_fs s) (cwd w) (joinpath (parse workdir) "run.scr")
    = Some (scr_text (parse plugin_dll)) /\
  lines (scr_text (parse plugin_dll)) = script_lines /\
  scr_text (parse plugin_dll) = unlines script_lines /\
  scr_text (parse plugin_dll) = join nl script_lines +:+ nl.
Proof.
  intros Hlf Hrun Hlog script_lines.
  destruct (export_started host _ _ _ _ _ _ _ _ _ Hrun Hlog) as (_ & Hfile & _).
  split; [exact Hfile |].
  split; [| split; [apply scr_text_unlines | reflexivity]].
  rewrite scr_text_unlines. apply lines_unlines.
  assert (Hp : has_char LF (str (parse plugin_dll)) = false)
    by (apply str_parse_without; [reflexivity | reflexivity | exact Hlf]).
  repeat constructor.
  rewrite !has_char_app, Hp. reflexivity.
Qed.

Lemma script_five_lines_witness :
  lines (scr_text (parse "/data/plant tools/PlantJsonExporter.dll")) =
  [ "_.NETLOAD";
    dq +:+ "/data/plant tools/PlantJsonExporter.dll" +:+ dq;
    "_.EXPORTPLANTJSON"; "_.QUIT"; "Y" ].
Proof.
  refine (proj1 (proj2 (script_five_lines host7
    "/data/Project.xml" "/data/export/plant.json"
    "/data/plant tools/PlantJsonExporter.dll" "/opt/acad" "/home/run/work"
    w0 (fst run_abs) (snd run_abs) (started_by w0 run_abs) _ _ _)));
    vm_compute; reflexivity.
Defined.

(** *** Missing inputs *)




(** C9: the three existence checks come first and in the order host
    executable, project file, plug-in binary: when an input is missing
    the call raises at the check of the first missing one in that order,
    with an error that names that path ([FileNotFoundError], or the
    [OSError] of a check that could not be carried out), and leaves the
    world as it was (no directory made, no script written). *)
Theorem checks_before_mutation
    host project_xml out_json plugin_dll acad_exe workdir w :
  path_exists w (parse acad_exe) = false \/
  path_exists w (parse project_xml) = false \/
  path_exists w (parse plugin_dll) = false ->
  exists p e,
    export_plant_json host project_xml out_json plugin_dll acad_exe workdir w
      = (w, Raise e) /\
    first_missing w (parse acad_exe) (parse project_xml) (parse plugin_dll)
      = Some p /\
    exn_path e = str p /\
    (e = FileNotFoundError (str p) \/
     exists err, stat w p = inr err /\ ignore_error err = false /\
                 e = OSError err (str p)) /\
    (path_exists w (parse acad_exe) = false -> p = parse acad_exe) /\
    (path_exists w (parse acad_exe) = true ->
     path_exists w (parse project_xml) = false -> p = parse project_xml) /\
    (path_exists w (parse acad_exe) = true ->
     path_exists w (parse project_xml) = true -> p = parse plugin_dll).
Proof.
  intros Hmiss.
  destruct (first_missing w (parse acad_exe) (parse project_xml)
              (parse plugin_dll)) as [p |] eqn:Hm.
  - destruct (export_missing host project_xml out_json plugin_dll acad_exe
                workdir w p Hm) as (e & He & Hc).
    destruct (check_Some _ _ _ Hc) as (_ & Hname & Hkind).
    exists p, e. split; [exact He |]. split; [reflexivity |].
    split; [exact Hname |]. split; [exact Hkind |].
    revert Hm. unfold first_missing. simpl.
    destruct (path_exists w (parse acad_exe)); simpl;
      [| intros [= <-]; repeat split; auto; discriminate].
    destruct (path_exists w (parse project_xml)); simpl;
      [| intros [= <-]; repeat split; auto; discriminate].
    destruct (path_exists w (parse plugin_dll)); simpl;
      [discriminate | intros [= <-]; repeat split; auto; discriminate].
  - apply first_missing_None in Hm as (Ha & Hb & Hc).
    rewrite Ha, Hb, Hc in Hmiss. intuition discriminate.
Qed.

(** Host executable and project file both missing: the error names the
    host executable. *)
Lemma checks_before_mutation_witness :
  exists e,
    export_plant_json host7 "/data/Nothing.xml" "/data/export/plant.json"
      "/data/plant tools/PlantJsonExporter.dll" "/opt/nowhere" "/home/run/work"
      w0 = (w0, Raise e) /\
    exn_path e = str (parse "/opt/nowhere").
Proof.
  destruct (checks_before_mutation host7
    "/data/Nothing.xml" "/data/export/plant.json"
    "/data/plant tools/PlantJsonExporter.dll" "/opt/nowhere" "/home/run/work" w0)
    as (p & e & Hrun & _ & Hname & _ & Hfirst & _).
  - left. vm_compute. reflexivity.
  - exists e. split; [exact Hrun |]. rewrite Hname, (Hfirst eq_refl).
    reflexivity.
Defined.

(** *** The exit code *)

(** C3, as the specification states it, fails in its last part: a host
    that a signal ended has the return code -9; the call returns -9 and
    the entry point ends with [SystemExit(-9)], but its own exit status
    is 247. *)
Lemma killed_host_exit_status_example :
  host_killed (st_launch (started_by w_entry run_killed))
    (st_fs (started_by w_entry run_killed)) (cwd w_entry)
    = Exited (-9) (fs (fst run_killed)) /\
  launched (fst run_killed) = [started_by w_entry run_killed] /\
  snd run_killed = SystemExit (-9) /\
  exit_status (snd run_killed) = Some 247%Z.
Proof. repeat split; vm_compute; reflexivity. Qed.

(** C3, amended: when the host was started and ended with the return
    code [N], [export_plant_json] returns [N] itself, zero or not, and
    does not raise; the entry point then ends with [SystemExit(N)], so
    its own exit status is [N] when [N] lies between 0 and 255, and
    [N mod 256], the low eight bits, for every [N] a C long can hold. *)
Theorem exit_code_returned host module_file N :
  (forall project_xml out_json plugin_dll acad_exe workdir w w' r s f',
     export_plant_json host project_xml out_json plugin_dll acad_exe workdir w
       = (w', r) ->
     launched w' = (launched w ++ [s])%list ->
     host (st_launch s) (st_fs s) (cwd w) = Exited N f' ->
     r = Return N) /\
  (forall w w' e s f',
     script host module_file w = (w', e) ->
     launched w' = (launched w ++ [s])%list ->
     host (st_launch s) (st_fs s) (cwd w) = Exited N f' ->
     e = SystemExit N /\
     ((0 <= N < 256)%Z -> exit_status e = Some N) /\
     ((- 2 ^ 63 <= N < 2 ^ 63)%Z -> exit_status e = Some (N mod 256)%Z)).
Proof.
  assert (Hexp : forall project_xml out_json plugin_dll acad_exe workdir
                        w w' r s f',
     export_plant_json host project_xml out_json plugin_dll acad_exe workdir w
       = (w', r) ->
     launched w' = (launched w ++ [s])%list ->
     host (st_launch s) (st_fs s) (cwd w) = Exited N f' ->
     r = Return N).
  { intros * Hrun Hlog Hhost.
    destruct (export_started host _ _ _ _ _ _ _ _ _ Hrun Hlog)
      as (_ & _ & [(n & Hn & ->) | [Hh _]]); congruence. }
  split; [exact Hexp |].
  intros w w' e s f' Hscript Hlog Hhost.
  unfold script in Hscript.
  destruct (main host module_file w) as [w1 r] eqn:Hmain.
  assert (Hw : w1 = w') by (destruct r; now injection Hscript).
  subst w1.
  pose proof (main_started host module_file w w' r s Hmain Hlog) as Hrun.
  rewrite (Hexp _ _ _ _ _ _ _ _ _ _ Hrun Hlog Hhost) in Hscript.
  injection Hscript as <-. split; [reflexivity |].
  split; intros HN; simpl;
    (replace (- 2 ^ 63 <=? N)%Z with true by (symmetry; apply Z.leb_le; lia));
    (replace (N <? 2 ^ 63)%Z with true by (symmetry; apply Z.ltb_lt; lia));
    simpl; [now rewrite Z.mod_small | reflexivity].
Qed.

(** The host ends with exit code 7: the call returns 7 and the entry
    point exits with 7. *)
Lemma exit_code_returned_witness :
  snd run_abs = Return 7%Z /\
  snd run_main = SystemExit 7 /\ exit_status (snd run_main) = Some 7%Z.
Proof.
  destruct (exit_code_returned host7 module_file0 7) as [Hexp Hscript].
  split.
  - apply (Hexp "/data/Project.xml" "/data/export/plant.json"
             "/data/plant tools/PlantJsonExporter.dll" "/opt/acad"
             "/home/run/work" w0 (fst run_abs) (snd run_abs)
             (started_by w0 run_abs) (st_fs (started_by w0 run_abs)));
      vm_compute; reflexivity.
  - destruct (Hscript w_main (fst run_main) (snd run_main)
                (started_by w_main run_main)
                (st_fs (started_by w_main run_main))) as (He & Hst & _);
      [vm_compute; reflexivity .. |].
    split; [exact He | apply Hst; lia].
Defined.

(** *** What the script depends on *)



(** *** The launch *)

(** C5: a run that returns wrote the script to [workdir / "run.scr"] and
    started the host with the argument vector
    [[host, "/product", "PLNT3D", "/b", workdir / "run.scr"]], in the
    working directory of the request; below a working directory with a
    name, the script path reads as the directory, a slash and
    [run.scr]. *)
Theorem launch_shape
    host project_xml out_json plugin_dll acad_exe workdir w w' n :
  export_plant_json host project_xml out_json plugin_dll acad_exe workdir w
    = (w', Return n) ->
  exists s,
    launched w' = (launched w ++ [s])%list /\
    read_text (st_fs s) (cwd w) (joinpath (parse workdir) "run.scr")
      = Some (scr_text (parse plugin_dll)) /\
    l_cmd (st_launch s) =
      [ str (parse acad_exe); "/product"; "PLNT3D"; "/b";
        str (joinpath (parse workdir) "run.scr") ] /\
    l_cwd (st_launch s) = str (parse workdir) /\
    (tail (parse workdir) <> [] ->
     str (joinpath (parse workdir) "run.scr")
       = str (parse workdir) +:+ "/run.scr").
Proof.
  intros Hrun.
  destruct (export_returned host _ _ _ _ _ _ _ _ Hrun) as [s Hlog].
  destruct (export_started host _ _ _ _ _ _ _ _ _ Hrun Hlog) as (Hl & Hfile & _).
  exists s. rewrite Hl. repeat split; auto.
  intros Hne. apply (str_joinpath (parse workdir) "run.scr" (parse_wf _) Hne).
Qed.

Lemma launch_shape_witness :
  exists s,
    launched (fst run_abs) = [s] /\
    l_cmd (st_launch s) =
      [ "/opt/acad"; "/product"; "PLNT3D"; "/b"; "/home/run/work/run.scr" ] /\
    l_cwd (st_launch s) = "/home/run/work".
Proof.
  destruct (launch_shape host7 "/data/Project.xml" "/data/export/plant.json"
    "/data/plant tools/PlantJsonExporter.dll" "/opt/acad" "/home/run/work"
    w0 (fst run_abs) 7) as (s & Hlog & _ & Hcmd & Hcwd & _).
  - vm_compute. reflexivity.
  - exists s. split; [exact Hlog |]. split; [exact Hcmd | exact Hcwd].
Defined.

(** *** The environment of the host *)

(** C6: the host runs in a copy of the caller's environment to which the
    two variables [PLANT_PROJECT_XML] and [PLANT_JSON_OUT] were added,
    with the project file and the output path as strings; every other
    variable is the caller's; and the caller's own environment is the
    same after the run, whatever the run did. *)
Theorem child_environment
    host project_xml out_json plugin_dll acad_exe workdir w w' r :
  export_plant_json host project_xml out_json plugin_dll acad_exe workdir w
    = (w', r) ->
  environ w' = environ w /\
  forall s,
    launched w' = (launched w ++ [s])%list ->
    l_env (st_launch s) =
      <["PLANT_JSON_OUT" := str (parse out_json)]>
        (<["PLANT_PROJECT_XML" := str (parse project_xml)]> (environ w)) /\
    l_env (st_launch s) !! "PLANT_PROJECT_XML" = Some (str (parse project_xml)) /\
    l_env (st_launch s) !! "PLANT_JSON_OUT" = Some (str (parse out_json)) /\
    forall k, k <> "PLANT_PROJECT_XML" -> k <> "PLANT_JSON_OUT" ->
              l_env (st_launch s) !! k = environ w !! k.
Proof.
  intros Hrun. split; [apply (export_keeps host _ _ _ _ _ _ _ _ Hrun) |].
  intros s Hlog.
  destruct (export_started host _ _ _ _ _ _ _ _ _ Hrun Hlog) as (-> & _).
  simpl l_env. split; [reflexivity |].
  split; [| split].
  - rewrite lookup_insert_ne by discriminate. apply lookup_insert_eq.
  - apply lookup_insert_eq.
  - intros k Hk1 Hk2. rewrite !lookup_insert_ne by congruence. reflexivity.
Qed.

Lemma child_environment_witness :
  environ (fst run_abs) = environ w0 /\
  l_env (st_launch (started_by w0 run_abs)) !! "PLANT_PROJECT_XML"
    = Some "/data/Project.xml" /\
  l_env (st_launch (started_by w0 run_abs)) !! "PLANT_JSON_OUT"
    = Some "/data/export/plant.json" /\
  l_env (st_launch (started_by w0 run_abs)) !! "PATH" = Some "/usr/bin".
Proof.
  destruct (child_environment host7 "/data/Project.xml" "/data/export/plant.json"
    "/data/plant tools/PlantJsonExporter.dll" "/opt/acad" "/home/run/work"
    w0 (fst run_abs) (snd run_abs)) as [Hsame Hchild];
    [vm_compute; reflexivity |].
  destruct (Hchild (started_by w0 run_abs)) as (_ & Hp & Ho & Hrest);
    [vm_compute; reflexivity |].
  split; [exact Hsame |]. split; [exact Hp |]. split; [exact Ho |].
  rewrite Hrest by discriminate. vm_compute. reflexivity.
Defined.

(** C7, as the specification states it, fails: called with a project
    file and an output path relative to the caller's directory, the run
    starts the host with both variables carrying the relative paths. *)
Lemma relative_paths_example :
  launched (fst run_rel) = [started_by w0 run_rel] /\
  l_env (st_launch (started_by w0 run_rel)) !! "PLANT_PROJECT_XML"
    = Some "Project.xml" /\
  is_absolute (parse "Project.xml") = false /\
  l_env (st_launch (started_by w0 run_rel)) !! "PLANT_JSON_OUT"
    = Some "export/plant.json" /\
  is_absolute (parse "export/plant.json") = false.
Proof. repeat split; vm_compute; reflexivity. Qed.

(** C7, amended: every path of the request goes through [Path(...)],
    which drops repeated slashes and dot components and resolves nothing;
    the two variables carry [str(Path(project_xml))] and
    [str(Path(out_json))], which denote the paths the caller gave and are
    absolute exactly when the caller's paths are. *)
Theorem environment_paths_as_given
    host project_xml out_json plugin_dll acad_exe workdir w w' r s :
  export_plant_json host project_xml out_json plugin_dll acad_exe workdir w
    = (w', r) ->
  launched w' = (launched w ++ [s])%list ->
  l_env (st_launch s) !! "PLANT_PROJECT_XML" = Some (str (parse project_xml)) /\
  l_env (st_launch s) !! "PLANT_JSON_OUT" = Some (str (parse out_json)) /\
  parse (str (parse project_xml)) = parse project_xml /\
  parse (str (parse out_json)) = parse out_json /\
  is_absolute (parse (str (parse project_xml)))
    = is_absolute (parse project_xml) /\
  is_absolute (parse (str (parse out_json))) = is_absolute (parse out_json).
Proof.
  intros Hrun Hlog.
  destruct (export_started host _ _ _ _ _ _ _ _ _ Hrun Hlog) as (-> & _).
  simpl l_env. rewrite !parse_str_parse.
  repeat split.
  - rewrite lookup_insert_ne by discriminate. apply lookup_insert_eq.
  - apply lookup_insert_eq.
Qed.

Lemma environment_paths_as_given_witness :
  l_env (st_launch (started_by w0 run_abs)) !! "PLANT_PROJECT_XML"
    = Some "/data/Project.xml" /\
  is_absolute (parse "/data/Project.xml") = true.
Proof.
  destruct (environment_paths_as_given host7
    "/data/Project.xml" "/data/export/plant.json"
    "/data/plant tools/PlantJsonExporter.dll" "/opt/acad" "/home/run/work"
    w0 (fst run_abs) (snd run_abs) (started_by w0 run_abs))
    as (Hp & _); [vm_compute; reflexivity .. |].
  split; [exact Hp | reflexivity].
Defined.

(** *** An output path that is a directory *)

Lemma default_name_wf : wf_part "plant_export.json".
Proof. split; reflexivity. Qed.

(** C8: when the output path [main] reads is an existing directory, the
    output path it passes on, and so the one in the environment of the
    host, is that directory joined with [plant_export.json]. *)
Theorem main_output_directory host module_file w w' r s :
  let out_json := default default_out_json (environ w !! "PLANT_JSON_OUT") in
  path_is_dir w (parse out_json) = true ->
  main host module_file w = (w', r) ->
  launched w' = (launched w ++ [s])%list ->
  l_env (st_launch s) !! "PLANT_JSON_OUT"
    = Some (str (joinpath (parse out_json) "plant_export.json")).
Proof.
  intros out_json Hdir Hmain Hlog.
  pose proof (main_started host module_file w w' r s Hmain Hlog) as Hrun.
  cbv zeta in Hrun. fold out_json in Hrun. rewrite Hdir in Hrun.
  destruct (export_started host _ _ _ _ _ _ _ _ _ Hrun Hlog) as (-> & _).
  simpl l_env. rewrite lookup_insert_eq.
  rewrite parse_str; [reflexivity |].
  apply joinpath_wf; [apply parse_wf | apply default_name_wf].
Qed.

Lemma main_output_directory_witness :
  l_env (st_launch (started_by w_main (main host7 module_file0 w_main)))
    !! "PLANT_JSON_OUT"
  = Some "/data/out/plant_export.json".
Proof.
  apply (main_output_directory host7 module_file0 w_main
           (fst (main host7 module_file0 w_main))
           (snd (main host7 module_file0 w_main)));
    vm_compute; reflexivity.
Defined.

(** C10: [export_plant_json] itself does not append the default file
    name: called with an output path that is an existing directory, it
    gives the host that directory in [PLANT_JSON_OUT], which is not the
    directory joined with [plant_export.json]. *)
Theorem direct_call_keeps_directory
    host project_xml out_json plugin_dll acad_exe workdir w w' r s :
  path_is_dir w (parse out_json) = true ->
  export_plant_json host project_xml out_json plugin_dll acad_exe workdir w
    = (w', r) ->
  launched w' = (launched w ++ [s])%list ->
  l_env (st_launch s) !! "PLANT_JSON_OUT" = Some (str (parse out_json)) /\
  path_is_dir w (parse (str (parse out_json))) = true /\
  str (parse out_json)
    <> str (joinpath (parse out_json) "plant_export.json").
Proof.
  intros Hdir Hrun Hlog.
  destruct (export_started host _ _ _ _ _ _ _ _ _ Hrun Hlog) as (-> & _).
  simpl l_env. rewrite lookup_insert_eq, parse_str_parse.
  split; [reflexivity |]. split; [exact Hdir |].
  intros E. symmetry in E. revert E.
  apply str_joinpath_neq; [apply parse_wf | apply default_name_wf].
Qed.

Lemma direct_call_keeps_directory_witness :
  l_env (st_launch (started_by w0 run_dir)) !! "PLANT_JSON_OUT"
    = Some "/data/out".
Proof.
  refine (proj1 (direct_call_keeps_directory host7
    "/data/Project.xml" "/data/out" "/data/out/PlantJsonExporter.dll"
    "/opt/acad" "/home/run/work" w0 (fst run_dir) (snd run_dir)
    (started_by w0 run_dir) _ _ _));
    vm_compute; reflexivity.
Defined.

End Spec.

(** * More of the program *)

(** ** What the file system calls keep *)

Module EffectFacts.
Import Text Pathlib OS RunExport Effects.
Import TextFacts PathFacts OSFacts RunExportFacts.

Lemma keeps_refl w : keeps w w.
Proof. split; auto. Qed.

Lemma keeps_trans w1 w2 w3 : keeps w1 w2 -> keeps w2 w3 -> keeps w1 w3.
Proof.
  intros [C1 H1] [C2 H2]. split; [congruence | auto].
Qed.

Lemma keeps_keeps_dirs w w' : keeps w w' -> keeps_dirs w w'.
Proof. intros [C H]. split; auto. Qed.

Lemma keeps_dirs_trans w1 w2 w3 :
  keeps_dirs w1 w2 -> keeps_dirs w2 w3 -> keeps_dirs w1 w3.
Proof.
  intros [C1 H1] [C2 H2]. split; [congruence | auto].
Qed.

Lemma along_bind {A B} (R : World -> World -> Prop) (c : M A) (k : A -> M B) :
  (forall a b d, R a b -> R b d -> R a d) ->
  along R c -> (forall a, along R (k a)) -> along R (bind c k).
Proof.
  intros Htr Hc Hk w. unfold bind. specialize (Hc w).
  destruct (c w) as [w1 [a | e |]]; simpl in *; auto.
  eapply Htr; [exact Hc | apply Hk].
Qed.

(** A node put where there was none hides nothing. *)
Lemma node_at_insert_fresh f l (n : node) x m :
  node_at f l = None ->
  node_at f x = Some m -> node_at (<[l := n]> f) x = Some m.
Proof.
  intros Hl Hx. destruct x as [|c x]; [exact Hx |].
  simpl in *. rewrite lookup_insert_ne; [exact Hx |].
  intros ->. simpl in Hl. congruence.
Qed.

Lemma os_mkdir_inv p w w' :
  os_mkdir p w = (w', Return tt) ->
  exists l, locate w p = At l /\ node_at (fs w) l = None /\
            w' = set_fs w (<[l := Dir]> (fs w)).
Proof.
  unfold os_mkdir. destruct (locate w p) as [l | | |]; try discriminate.
  destruct (node_at (fs w) l) eqn:E; try discriminate.
  intros [= <-]. eauto.
Qed.

Lemma os_mkdir_keeps p : along keeps (os_mkdir p).
Proof.
  intros w. unfold os_mkdir.
  destruct (locate w p) as [l | | |]; try apply keeps_refl.
  destruct (node_at (fs w) l) eqn:E; [apply keeps_refl |].
  split; [reflexivity |]. intros x n Hx. simpl.
  now apply node_at_insert_fresh.
Qed.

Lemma is_dir_world p w : fst (is_dir p w) = w.
Proof.
  unfold is_dir.
  destruct (stat w p) as [[] | e]; [| | destruct (ignore_error e)];
    reflexivity.
Qed.

(** The world after [is_dir()] answered is the world before. *)
Ltac same_after_is_dir :=
  match goal with
  | |- context [is_dir ?p ?w1] =>
      let Hw := fresh "Hw" in
      pose proof (is_dir_world p w1) as Hw;
      destruct (is_dir p w1) as [? [[] | ? |]]; simpl in Hw |- *; subst
  end.

Lemma mkdir_exist_ok_world p w :
  fst (mkdir_exist_ok p w) = fst (os_mkdir p w).
Proof.
  unfold mkdir_exist_ok.
  destruct (os_mkdir p w) as [w1 [[] | [a | [] f] |]]; simpl;
    try reflexivity; same_after_is_dir; reflexivity.
Qed.

Lemma mkdir_exist_ok_keeps p : along keeps (mkdir_exist_ok p).
Proof. intros w. rewrite mkdir_exist_ok_world. apply os_mkdir_keeps. Qed.

Lemma mkdir_parents_rev_keeps r rt : along keeps (mkdir_parents_rev r rt).
Proof.
  induction rt as [|c rt IH]; intros w; rewrite mkdir_parents_rev_step;
    cbv zeta.
  - pose proof (os_mkdir_keeps (mkPath r (rev [])) w) as K.
    destruct (os_mkdir (mkPath r (rev [])) w) as [w1 [[] | [a | [] f] |]];
      simpl fst in K; try exact K; same_after_is_dir; exact K.
  - pose proof (os_mkdir_keeps (mkPath r (rev (c :: rt))) w) as K.
    destruct (os_mkdir (mkPath r (rev (c :: rt))) w)
      as [w1 [[] | [a | [] f] |]];
      simpl fst in K; try exact K;
      try (same_after_is_dir; exact K).
    eapply keeps_trans; [exact K |].
    apply (along_bind keeps (mkdir_parents_rev r rt)
             (fun _ => mkdir_exist_ok (mkPath r (rev (c :: rt))))
             keeps_trans IH (fun _ => mkdir_exist_ok_keeps _)).
Qed.

Lemma mkdir_keeps p : along keeps (mkdir p).
Proof. apply mkdir_parents_rev_keeps. Qed.

Lemma path_is_dir_inv w p :
  path_is_dir w p = true ->
  exists l, locate w p = At l /\ node_at (fs w) l = Some Dir.
Proof.
  unfold path_is_dir, stat.
  destruct (locate w p) as [l | | |]; try discriminate.
  destruct (node_at (fs w) l) as [[] |] eqn:E; try discriminate.
  intros _. exists l. split; [reflexivity | exact E].
Qed.

Lemma path_is_dir_intro w p l :
  locate w p = At l -> node_at (fs w) l = Some Dir -> path_is_dir w p = true.
Proof. unfold path_is_dir, stat. now intros -> ->. Qed.

Lemma locate_keeps_dirs w w' p l :
  keeps_dirs w w' -> locate w p = At l -> locate w' p = At l.
Proof.
  intros [C H]. unfold locate. rewrite C.
  destruct (PATH_MAX <=? String.length (str p))%nat; [discriminate |].
  now apply walk_stable.
Qed.

(** A directory stays one as long as directories are kept. *)
Lemma path_is_dir_keeps w w' p :
  keeps_dirs w w' -> path_is_dir w p = true -> path_is_dir w' p = true.
Proof.
  intros K Hd. destruct (path_is_dir_inv w p Hd) as (l & Hl & Hn).
  apply (path_is_dir_intro w' p l).
  - now apply (locate_keeps_dirs w).
  - destruct K as [_ H]. now apply H.
Qed.

Lemma os_mkdir_is_dir p w w' :
  os_mkdir p w = (w', Return tt) -> path_is_dir w' p = true.
Proof.
  intros H. destruct (os_mkdir_inv p w w' H) as (l & Hl & Hn & ->).
  apply (path_is_dir_intro _ p l).
  - apply (locate_keeps_dirs w); [| exact Hl].
    apply keeps_keeps_dirs. split; [reflexivity |].
    intros x n Hx. simpl. now apply node_at_insert_fresh.
  - destruct l as [|c l]; [discriminate Hn |].
    simpl. apply lookup_insert_eq.
Qed.

Lemma mkdir_exist_ok_is_dir p w w' :
  mkdir_exist_ok p w = (w', Return tt) -> path_is_dir w' p = true.
Proof.
  unfold mkdir_exist_ok.
  destruct (os_mkdir p w) as [w1 [[] | [a | [] f] |]] eqn:E;
    try discriminate;
    try (destruct (is_dir p w1) as [w2 [[] | e |]] eqn:D; try discriminate;
         intros [= <-]; apply is_dir_Return in D as [-> D]; now symmetry).
  intros [= <-]. now apply os_mkdir_is_dir in E.
Qed.

Lemma path_eta (p : Path) : mkPath (root p) (rev (rev (tail p))) = p.
Proof. rewrite rev_involutive. now destruct p. Qed.

(** One step of [path.mkdir(parents=True, exist_ok=True)]. *)
Lemma mkdir_eq p w :
  mkdir p w =
  match os_mkdir p w with
  | (w1, Raise (OSError ENOENT f)) =>
      match rev (tail p) with
      | [] => (w1, Raise (OSError ENOENT f))
      | _ :: rt' => (exec mkdir_parents_rev (root p) rt'; mkdir_exist_ok p) w1
      end
  | (w1, Raise e) =>
      match is_dir p w1 with
      | (w2, Return true) => (w2, Return tt)
      | (w2, Return false) => (w2, Raise e)
      | (w2, Raise e') => (w2, Raise e')
      | (w2, Hang) => (w2, Hang)
      end
  | r => r
  end.
Proof.
  unfold mkdir. rewrite mkdir_parents_rev_step. cbv zeta.
  now rewrite path_eta.
Qed.

(** When [mkdir] returns, the path is a directory. *)
Lemma mkdir_is_dir p w w' :
  mkdir p w = (w', Return tt) -> path_is_dir w' p = true.
Proof.
  rewrite mkdir_eq.
  destruct (os_mkdir p w) as [w1 [[] | [a | [] f] |]] eqn:E;
    try discriminate;
    try (destruct (is_dir p w1) as [w2 [[] | e |]] eqn:D; try discriminate;
         intros [= <-]; apply is_dir_Return in D as [-> D]; now symmetry).
  - intros [= <-]. now apply os_mkdir_is_dir in E.
  - destruct (rev (tail p)) as [|c rt]; [discriminate |].
    unfold bind.
    destruct (mkdir_parents_rev (root p) rt w1) as [w2 [[] | e |]];
      try discriminate.
    apply mkdir_exist_ok_is_dir.
Qed.

(** On a directory that is there, [mkdir] returns and changes nothing. *)
Lemma mkdir_existing p w :
  path_is_dir w p = true -> mkdir p w = (w, Return tt).
Proof.
  intros Hd. rewrite mkdir_eq.
  destruct (path_is_dir_inv w p Hd) as (l & Hl & Hn).
  unfold os_mkdir. rewrite Hl, Hn. now rewrite (is_dir_true _ _ Hd).
Qed.

(** On a file, [mkdir] raises [FileExistsError] and changes nothing. *)
Lemma mkdir_on_file p w c :
  stat w p = inl (File c) ->
  mkdir p w = (w, Raise (OSError EEXIST (str p))).
Proof.
  intros Hs. rewrite mkdir_eq.
  assert (Hd : is_dir p w = (w, Return false))
    by (unfold is_dir; now rewrite Hs).
  unfold stat in Hs.
  destruct (locate w p) as [l | | |] eqn:Hl; try discriminate.
  destruct (node_at (fs w) l) as [n |] eqn:Hn; try discriminate.
  unfold os_mkdir. rewrite Hl, Hn. now rewrite Hd.
Qed.

Lemma walk_snoc f cur comps name l :
  walk f cur comps = At l -> node_at f l = Some Dir ->
  String.eqb name ".." = false ->
  (NAME_MAX <? String.length name)%nat = false ->
  walk f cur (comps ++ [name]) = At (name :: l).
Proof.
  revert cur. induction comps as [|c rest IH]; intros cur; simpl.
  - intros [= ->] Hd Hn Hlen. now rewrite Hd, Hn, Hlen.
  - destruct (node_at f cur) as [[] |]; try discriminate.
    destruct (NAME_MAX <? String.length c)%nat; [discriminate | apply IH].
Qed.


(** Below a directory, a name resolves to the location of that name. *)
Lemma locate_joinpath w p name l :
  locate w p = At l -> node_at (fs w) l = Some Dir ->
  String.eqb name ".." = false ->
  (NAME_MAX <? String.length name)%nat = false ->
  (PATH_MAX <=? String.length (str (joinpath p name)))%nat = false ->
  locate w (joinpath p name) = At (name :: l).
Proof.
  intros Hl Hd Hn Hname Hpath. apply locate_At in Hl as [_ Hw].
  unfold locate. rewrite Hpath. now apply walk_snoc.
Qed.

Lemma length_append (a b : string) :
  String.length (a +:+ b) = String.length a + String.length b.
Proof.
  induction a as [|x a IH]; [reflexivity |].
  rewrite app_cons. simpl. now rewrite IH.
Qed.


Lemma write_text_ok q data w l :
  locate w q = At l -> node_at (fs w) l <> Some Dir ->
  write_text q data w = (set_fs w (<[l := File data]> (fs w)), Return tt).
Proof.
  intros Hl Hn. unfold write_text. rewrite Hl.
  destruct (node_at (fs w) l) as [[] |]; congruence.
Qed.

Lemma write_text_inv q data w w' :
  write_text q data w = (w', Return tt) ->
  exists l, locate w q = At l /\ node_at (fs w) l <> Some Dir /\
            w' = set_fs w (<[l := File data]> (fs w)).
Proof.
  unfold write_text. destruct (locate w q) as [l | | |]; try discriminate.
  destruct (node_at (fs w) l) as [[] |] eqn:E; try discriminate;
    intros [= <-]; exists l; repeat split; congruence.
Qed.


Lemma write_text_keeps_dirs q data : along keeps_dirs (write_text q data).
Proof.
  intros w. unfold write_text.
  destruct (locate w q) as [l | | |]; try (split; now auto).
  destruct (node_at (fs w) l) as [[] |] eqn:E; try (split; now auto);
    (split; [reflexivity |]); intros x Hx; simpl;
    apply node_at_insert_file; congruence.
Qed.

End EffectFacts.

(** ** Runs, step by step *)

Module StepFacts.
Import Text Pathlib OS RunExport Effects Defaults.
Import TextFacts PathFacts OSFacts RunExportFacts EffectFacts.

Lemma bind_return {A B} (c : M A) (k : A -> M B) w w1 a :
  c w = (w1, Return a) -> bind c k w = k a w1.
Proof. intros H. unfold bind. now rewrite H. Qed.

Lemma bind_raise {A B} (c : M A) (k : A -> M B) w w1 e :
  c w = (w1, Raise e) -> bind c k w = (w1, Raise e).
Proof. intros H. unfold bind. now rewrite H. Qed.

Lemma default_plugin_dll_eq module_file w :
  default_plugin_dll module_file w =
  (w, Return (plugin_below (parent (resolved w (parse module_file))))).
Proof. reflexivity. Qed.

Section Steps.
Variable host : Launch -> gmap (list string) node -> list string -> HostResult.

(** The worlds a run went through before it started the host. *)
Lemma export_trace project_xml out_json plugin_dll acad_exe workdir w w' r s :
  export_plant_json host project_xml out_json plugin_dll acad_exe workdir w
    = (w', r) ->
  launched w' = (launched w ++ [s])%list ->
  exists w1 w2 w3,
    mkdir (parse workdir) w = (w1, Return tt) /\
    mkdir (parent (parse out_json)) w1 = (w2, Return tt) /\
    write_text (joinpath (parse workdir) "run.scr")
      (scr_text (parse plugin_dll)) w2 = (w3, Return tt) /\
    st_fs s = fs w3.
Proof.
  intros Hrun Hlog.
  destruct (first_missing w (parse acad_exe) (parse project_xml)
              (parse plugin_dll)) as [p |] eqn:Hm.
  { destruct (export_missing host project_xml out_json plugin_dll acad_exe workdir w p Hm) as (e0 & He0 & _).
    rewrite He0 in Hrun.
    injection Hrun as <- _. now apply snoc_neq in Hlog. }
  rewrite (export_steps host _ _ _ _ _ _ Hm) in Hrun. unfold bind in Hrun.
  destruct (mkdir_quiet (parse workdir) w) as [F1 N1].
  destruct (mkdir (parse workdir) w) as [w1 [[] | e1 |]] eqn:M1;
    simpl in F1, N1;
    [| injection Hrun as <- _; destruct F1 as (_ & _ & E);
       rewrite E in Hlog; now apply snoc_neq in Hlog
     | contradiction].
  destruct (mkdir_quiet (parent (parse out_json)) w1) as [F2 N2].
  destruct (mkdir (parent (parse out_json)) w1) as [w2 [[] | e2 |]] eqn:M2;
    simpl in F2, N2;
    [| injection Hrun as <- _;
       destruct (frame_trans _ _ _ F1 F2) as (_ & _ & E);
       rewrite E in Hlog; now apply snoc_neq in Hlog
     | contradiction].
  pose proof (frame_trans _ _ _ F1 F2) as F12.
  destruct (write_text_quiet (joinpath (parse workdir) "run.scr")
              (scr_text (parse plugin_dll)) w2) as [F3 N3].
  destruct (write_text (joinpath (parse workdir) "run.scr")
              (scr_text (parse plugin_dll)) w2) as [w3 [[] | e3 |]] eqn:M3;
    simpl in F3, N3;
    [| injection Hrun as <- _;
       destruct (frame_trans _ _ _ F12 F3) as (_ & _ & E);
       rewrite E in Hlog; now apply snoc_neq in Hlog
     | contradiction].
  exists w1, w2, w3. split; [reflexivity |].
  split; [exact M2 |]. split; [exact M3 |].
  destruct (frame_trans _ _ _ F12 F3) as (_ & _ & E3).
  unfold environ_copy, subprocess_run, ret in Hrun.
  match type of Hrun with
  | context [host ?l ?f ?c] => destruct (host l f c) as [n f' | e |]
  end; injection Hrun as <- _; simpl in Hlog.
  - rewrite E3 in Hlog. apply snoc_inj in Hlog as <-. reflexivity.
  - rewrite E3 in Hlog. now apply snoc_neq in Hlog.
  - rewrite E3 in Hlog. apply snoc_inj in Hlog as <-. reflexivity.
Qed.

End Steps.

End StepFacts.

(** ** Further properties of run_export.py *)

Module More.
Import Text Pathlib OS RunExport Effects Defaults Scenario Scenario2.
Import TextFacts PathFacts OSFacts RunExportFacts EffectFacts StepFacts.

(** *** Launch and result *)

(** X1: the host is started exactly when the call does not raise, and at
    most once: a call that raises has started nothing, a call that
    returns or never ends has started one process. *)
Theorem host_started_unless_raised
    host project_xml out_json plugin_dll acad_exe workdir w w' r :
  export_plant_json host project_xml out_json plugin_dll acad_exe workdir w
    = (w', r) ->
  (launched w' = launched w /\ exists e, r = Raise e) \/
  (exists s, launched w' = (launched w ++ [s])%list /\
             (r = Hang \/ exists n, r = Return n)).
Proof.
  intros Hrun.
  destruct (first_missing w (parse acad_exe) (parse project_xml)
              (parse plugin_dll)) as [p |] eqn:Hm.
  - destruct (export_missing host project_xml out_json plugin_dll acad_exe workdir w p Hm) as (e0 & He0 & _).
    rewrite He0 in Hrun.
    injection Hrun as <- <-. left. eauto.
  - destruct (export_present host _ _ _ _ _ _ _ _ Hm Hrun)
      as (_ & _ & [H | (s & Hlog & _ & _ & [(n & _ & ->) | [_ ->]])]);
      [left; exact H | right; eauto | right; eauto].
Qed.

Lemma host_started_unless_raised_witness :
  (launched (fst run_on_file) = launched w_small /\
   exists e, snd run_on_file = Raise e) \/
  (exists s, launched (fst run_on_file) = (launched w_small ++ [s])%list /\
             (snd run_on_file = Hang \/ exists n, snd run_on_file = Return n)).
Proof.
  apply (host_started_unless_raised host7 "/p" "/o/j" "/d" "/a" "/a" w_small).
  vm_compute. reflexivity.
Defined.

(** X2: the value returned is never made up: a call that returns [n]
    started a host that ended with exit code [n], and the file system
    after the call is the one that host left; a call that never ends
    started a host that never ends. *)
Theorem returned_code_is_the_hosts
    host project_xml out_json plugin_dll acad_exe workdir w w' r :
  export_plant_json host project_xml out_json plugin_dll acad_exe workdir w
    = (w', r) ->
  (forall n, r = Return n ->
     exists s, launched w' = (launched w ++ [s])%list /\
               host (st_launch s) (st_fs s) (cwd w) = Exited n (fs w')) /\
  (r = Hang ->
     exists s, launched w' = (launched w ++ [s])%list /\
               host (st_launch s) (st_fs s) (cwd w) = Hangs).
Proof.
  intros Hrun.
  destruct (first_missing w (parse acad_exe) (parse project_xml)
              (parse plugin_dll)) as [p |] eqn:Hm.
  - destruct (export_missing host project_xml out_json plugin_dll acad_exe workdir w p Hm) as (e0 & He0 & _).
    rewrite He0 in Hrun.
    injection Hrun as <- <-. split; [intros n | ]; discriminate.
  - destruct (export_present host _ _ _ _ _ _ _ _ Hm Hrun)
      as (_ & _ & [[_ [e ->]] |
                   (s & Hlog & _ & _ & [(n & Hn & ->) | [Hh ->]])]).
    + split; [intros n | ]; discriminate.
    + split; [| discriminate]. intros n0 [= <-]. eauto.
    + split; [intros n; discriminate |]. eauto.
Qed.

Lemma returned_code_is_the_hosts_witness :
  (exists s, launched (fst run_small) = (launched w_small ++ [s])%list /\
             host7 (st_launch s) (st_fs s) (cwd w_small)
               = Exited 7 (fs (fst run_small))) /\
  (exists s, launched (fst run_forever) = (launched w_small ++ [s])%list /\
             host_forever (st_launch s) (st_fs s) (cwd w_small) = Hangs).
Proof.
  split.
  - refine (proj1 (returned_code_is_the_hosts host7 "/p" "/o/j" "/d" "/a" "/w"
      w_small (fst run_small) (snd run_small) _) 7%Z _);
      vm_compute; reflexivity.
  - refine (proj2 (returned_code_is_the_hosts host_forever
      "/p" "/o/j" "/d" "/a" "/w"
      w_small (fst run_forever) (snd run_forever) _) _);
      vm_compute; reflexivity.
Defined.

(** *** The file system the host finds *)

Lemma path_is_dir_same w w' p :
  fs w' = fs w -> cwd w' = cwd w -> path_is_dir w' p = path_is_dir w p.
Proof.
  intros Hf Hc. unfold path_is_dir, stat, locate. now rewrite Hf, Hc.
Qed.

(** X3: when the host is started, the working directory and the
    directory of the output file exist as directories in the file system
    it finds, whether they were there before or not. *)
Theorem directories_exist_at_launch
    host project_xml out_json plugin_dll acad_exe workdir w w' r s :
  export_plant_json host project_xml out_json plugin_dll acad_exe workdir w
    = (w', r) ->
  launched w' = (launched w ++ [s])%list ->
  path_is_dir (set_fs w (st_fs s)) (parse workdir) = true /\
  path_is_dir (set_fs w (st_fs s)) (parent (parse out_json)) = true.
Proof.
  intros Hrun Hlog.
  destruct (export_trace host _ _ _ _ _ _ _ _ _ Hrun Hlog)
    as (w1 & w2 & w3 & M1 & M2 & M3 & Hfs).
  pose proof (mkdir_is_dir _ _ _ M1) as D1.
  pose proof (mkdir_is_dir _ _ _ M2) as D2.
  pose proof (mkdir_keeps (parent (parse out_json)) w1) as K2.
  rewrite M2 in K2. simpl in K2.
  pose proof (write_text_keeps_dirs (joinpath (parse workdir) "run.scr")
                (scr_text (parse plugin_dll)) w2) as K3.
  rewrite M3 in K3. simpl in K3.
  pose proof (mkdir_keeps (parse workdir) w) as K1.
  rewrite M1 in K1. simpl in K1.
  assert (Hc : cwd w3 = cwd w).
  { destruct K1 as [C1 _], K2 as [C2 _], K3 as [C3 _]. congruence. }
  rewrite !(path_is_dir_same w3 (set_fs w (st_fs s))) by (simpl; congruence).
  split.
  - apply (path_is_dir_keeps w2); [exact K3 |].
    apply (path_is_dir_keeps w1); [now apply keeps_keeps_dirs | exact D1].
  - apply (path_is_dir_keeps w2); [exact K3 | exact D2].
Qed.

Lemma directories_exist_at_launch_witness :
  path_is_dir w_small (parse "w") = false /\
  path_is_dir (set_fs w_small (st_fs (started_by w_small run_small_rel)))
    (parse "w") = true /\
  path_is_dir (set_fs w_small (st_fs (started_by w_small run_small_rel)))
    (parent (parse "o/j")) = true.
Proof.
  split; [vm_compute; reflexivity |].
  apply (directories_exist_at_launch host7 "p" "o/j" "d" "a" "w"
    w_small (fst run_small_rel) (snd run_small_rel)); vm_compute; reflexivity.
Defined.

(** X4: before the host is started a run removes nothing and replaces at
    most one node: apart from the one location that now holds the script,
    every file and every directory that was there is still there,
    unchanged. *)
Theorem only_the_script_is_replaced
    host project_xml out_json plugin_dll acad_exe workdir w w' r s :
  export_plant_json host project_xml out_json plugin_dll acad_exe workdir w
    = (w', r) ->
  launched w' = (launched w ++ [s])%list ->
  exists l,
    st_fs s !! l = Some (File (scr_text (parse plugin_dll))) /\
    forall x n, x <> l ->
      node_at (fs w) x = Some n -> node_at (st_fs s) x = Some n.
Proof.
  intros Hrun Hlog.
  destruct (export_trace host _ _ _ _ _ _ _ _ _ Hrun Hlog)
    as (w1 & w2 & w3 & M1 & M2 & M3 & Hfs).
  pose proof (mkdir_keeps (parse workdir) w) as K1.
  rewrite M1 in K1. simpl in K1.
  pose proof (mkdir_keeps (parent (parse out_json)) w1) as K2.
  rewrite M2 in K2. simpl in K2.
  destruct (keeps_trans _ _ _ K1 K2) as [_ K].
  destruct (write_text_inv _ _ _ _ M3) as (l & _ & Hl & ->).
  exists l. rewrite Hfs. simpl. split; [apply lookup_insert_eq |].
  intros x n Hx Hn. specialize (K x n Hn).
  destruct x as [|c x]; [exact K |].
  simpl in *. rewrite lookup_insert_ne by congruence. exact K.
Qed.

Lemma only_the_script_is_replaced_witness :
  exists l,
    st_fs (started_by w_small run_small) !! l
      = Some (File (scr_text (parse "/d"))) /\
    forall x n, x <> l ->
      node_at (fs w_small) x = Some n ->
      node_at (st_fs (started_by w_small run_small)) x = Some n.
Proof.
  apply (only_the_script_is_replaced host7 "/p" "/o/j" "/d" "/a" "/w"
    w_small (fst run_small) (snd run_small)); vm_compute; reflexivity.
Defined.

(** *** Directories and script that are already there *)

(** X5: when the working directory given is an existing file, the call
    raises [FileExistsError] for it and does nothing else: no directory
    is made, no script written, no host started. *)
Theorem workdir_is_a_file
    host project_xml out_json plugin_dll acad_exe workdir w content :
  first_missing w (parse acad_exe) (parse project_xml) (parse plugin_dll)
    = None ->
  stat w (parse workdir) = inl (File content) ->
  export_plant_json host project_xml out_json plugin_dll acad_exe workdir w
    = (w, Raise (OSError EEXIST (str (parse workdir)))).
Proof.
  intros Hm Hfile. rewrite (export_steps host _ _ _ _ _ _ Hm).
  apply bind_raise. now apply (mkdir_on_file _ _ content).
Qed.

Lemma workdir_is_a_file_witness :
  run_on_file = (w_small, Raise (OSError EEXIST "/a")).
Proof.
  apply (workdir_is_a_file host7 "/p" "/o/j" "/d" "/a" "/a" w_small "h");
    vm_compute; reflexivity.
Defined.

Lemma run_scr_plain : String.eqb "run.scr" ".." = false.
Proof. reflexivity. Qed.

(** In directories that are there, a run is the write and the launch. *)
Lemma export_in_place
    host project_xml out_json plugin_dll acad_exe workdir w :
  first_missing w (parse acad_exe) (parse project_xml) (parse plugin_dll)
    = None ->
  path_is_dir w (parse workdir) = true ->
  path_is_dir w (parent (parse out_json)) = true ->
  path_is_dir w (joinpath (parse workdir) "run.scr") = false ->
  (String.length (str (joinpath (parse workdir) "run.scr")) <? PATH_MAX)%nat
    = true ->
  exists l,
    locate w (parse workdir) = At l /\
    export_plant_json host project_xml out_json plugin_dll acad_exe workdir w =
    (do returncode <-
       subprocess_run host
         [ str (parse acad_exe); "/product"; "PLNT3D"; "/b";
           str (joinpath (parse workdir) "run.scr") ]
         (<["PLANT_JSON_OUT" := str (parse out_json)]>
            (<["PLANT_PROJECT_XML" := str (parse project_xml)]> (environ w)))
         (str (parse workdir));
     ret returncode)
      (set_fs w (<["run.scr" :: l := File (scr_text (parse plugin_dll))]> (fs w))).
Proof.
  intros Hm Hwd Hout Hscr Hlen.
  destruct (path_is_dir_inv _ _ Hwd) as (l & Hl & Hn).
  exists l. split; [exact Hl |].
  rewrite (export_steps host _ _ _ _ _ _ Hm).
  rewrite (bind_return _ _ _ _ _ (mkdir_existing _ _ Hwd)).
  rewrite (bind_return _ _ _ _ _ (mkdir_existing _ _ Hout)).
  assert (Hpath : (PATH_MAX <=? String.length
                     (str (joinpath (parse workdir) "run.scr")))%nat = false)
    by (apply Nat.leb_gt; now apply Nat.ltb_lt).
  pose proof (locate_joinpath w (parse workdir) "run.scr" l Hl Hn run_scr_plain
                eq_refl Hpath) as Hloc.
  assert (Hfree : node_at (fs w) ("run.scr" :: l) <> Some Dir).
  { intros Hd. rewrite (path_is_dir_intro _ _ _ Hloc Hd) in Hscr.
    discriminate. }
  rewrite (bind_return _ _ _ _ _ (write_text_ok _ _ _ _ Hloc Hfree)).
  reflexivity.
Qed.

(** X6: a run in directories that are already there makes nothing new:
    with the inputs present, the working directory and the directory of
    the output file existing, no directory in the place of the script
    and a script path shorter than [PATH_MAX], the call is the launch of
    the host on the old file system with the script written (anew, if
    there was one) below the working directory. *)
Theorem rerun_only_rewrites_the_script
    host project_xml out_json plugin_dll acad_exe workdir w :
  first_missing w (parse acad_exe) (parse project_xml) (parse plugin_dll)
    = None ->
  path_is_dir w (parse workdir) = true ->
  path_is_dir w (parent (parse out_json)) = true ->
  path_is_dir w (joinpath (parse workdir) "run.scr") = false ->
  (String.length (str (joinpath (parse workdir) "run.scr")) <? PATH_MAX)%nat
    = true ->
  exists l,
    locate w (parse workdir) = At l /\
    export_plant_json host project_xml out_json plugin_dll acad_exe workdir w =
    (do returncode <-
       subprocess_run host
         [ str (parse acad_exe); "/product"; "PLNT3D"; "/b";
           str (joinpath (parse workdir) "run.scr") ]
         (<["PLANT_JSON_OUT" := str (parse out_json)]>
            (<["PLANT_PROJECT_XML" := str (parse project_xml)]> (environ w)))
         (str (parse workdir));
     ret returncode)
      (set_fs w (<["run.scr" :: l := File (scr_text (parse plugin_dll))]> (fs w))).
Proof.
  intros Hm Hwd Hout Hscr Hlen.
  destruct (path_is_dir_inv _ _ Hwd) as (l & Hl & Hn).
  exists l. split; [exact Hl |].
  rewrite (export_steps host _ _ _ _ _ _ Hm).
  rewrite (bind_return _ _ _ _ _ (mkdir_existing _ _ Hwd)).
  rewrite (bind_return _ _ _ _ _ (mkdir_existing _ _ Hout)).
  assert (Hpath : (PATH_MAX <=? String.length
                     (str (joinpath (parse workdir) "run.scr")))%nat = false)
    by (apply Nat.leb_gt; now apply Nat.ltb_lt).
  pose proof (locate_joinpath w (parse workdir) "run.scr" l Hl Hn run_scr_plain
                eq_refl Hpath) as Hloc.
  assert (Hfree : node_at (fs w) ("run.scr" :: l) <> Some Dir).
  { intros Hd. rewrite (path_is_dir_intro _ _ _ Hloc Hd) in Hscr.
    discriminate. }
  rewrite (bind_return _ _ _ _ _ (write_text_ok _ _ _ _ Hloc Hfree)).
  reflexivity.
Qed.

Lemma rerun_only_rewrites_the_script_witness :
  exists l,
    locate w_again (parse "/w") = At l /\
    run_again =
    (do returncode <-
       subprocess_run host7
         [ str (parse "/a"); "/product"; "PLNT3D"; "/b";
           str (joinpath (parse "/w") "run.scr") ]
         (<["PLANT_JSON_OUT" := str (parse "/o/j")]>
            (<["PLANT_PROJECT_XML" := str (parse "/p")]> (environ w_again)))
         (str (parse "/w"));
     ret returncode)
      (set_fs w_again
         (<["run.scr" :: l := File (scr_text (parse "/d"))]> (fs w_again))).
Proof.
  apply (rerun_only_rewrites_the_script host7 "/p" "/o/j" "/d" "/a" "/w"
    w_again); vm_compute; reflexivity.
Defined.



(** X8: when the host cannot be started, the call raises the error of
    the launch and nothing is undone: in directories that are there, and
    with a script path shorter than [PATH_MAX], the world after the call
    is the old one with the script written, and no process was
    started. *)
Theorem launch_failure_keeps_the_script
    host project_xml out_json plugin_dll acad_exe workdir w l e :
  first_missing w (parse acad_exe) (parse project_xml) (parse plugin_dll)
    = None ->
  path_is_dir w (parse workdir) = true ->
  path_is_dir w (parent (parse out_json)) = true ->
  path_is_dir w (joinpath (parse workdir) "run.scr") = false ->
  (String.length (str (joinpath (parse workdir) "run.scr")) <? PATH_MAX)%nat
    = true ->
  locate w (parse workdir) = At l ->
  host
    (mkLaunch
       [ str (parse acad_exe); "/product"; "PLNT3D"; "/b";
         str (joinpath (parse workdir) "run.scr") ]
       (<["PLANT_JSON_OUT" := str (parse out_json)]>
          (<["PLANT_PROJECT_XML" := str (parse project_xml)]> (environ w)))
       (str (parse workdir)))
    (<["run.scr" :: l := File (scr_text (parse plugin_dll))]> (fs w))
    (cwd w) = LaunchFailed e ->
  export_plant_json host project_xml out_json plugin_dll acad_exe workdir w
    = (set_fs w (<["run.scr" :: l := File (scr_text (parse plugin_dll))]> (fs w)),
       Raise e).
Proof.
  intros Hm Hwd Hout Hscr Hlen Hl Hhost.
  destruct (export_in_place host _ _ _ _ _ _ Hm Hwd Hout Hscr Hlen)
    as (l0 & Hl0 & ->).
  rewrite Hl in Hl0. injection Hl0 as <-.
  unfold bind, subprocess_run. simpl fs. simpl cwd. now rewrite Hhost.
Qed.

Lemma launch_failure_keeps_the_script_witness :
  run_denied =
  (set_fs w_again
     (<["run.scr" :: ["w"] := File (scr_text (parse "/d"))]> (fs w_again)),
   Raise (OSError EACCES "/a")).
Proof.
  apply (launch_failure_keeps_the_script host_denied
    "/p" "/o/j" "/d" "/a" "/w" w_again ["w"] (OSError EACCES "/a"));
    vm_compute; reflexivity.
Defined.

(** *** The command line *)

Lemma run_scr_wf : wf_part "run.scr".
Proof. split; reflexivity. Qed.

(** X9: the script argument and the working directory of the host are
    the caller's working directory as given: the last argument denotes
    [workdir / "run.scr"] and is absolute exactly when [workdir] is, so
    with a relative [workdir] it is relative to the caller's directory
    while the host runs in [workdir]. *)
Theorem script_argument_follows_workdir
    host project_xml out_json plugin_dll acad_exe workdir w w' r s :
  export_plant_json host project_xml out_json plugin_dll acad_exe workdir w
    = (w', r) ->
  launched w' = (launched w ++ [s])%list ->
  exists arg,
    last (l_cmd (st_launch s)) = Some arg /\
    parse arg = joinpath (parse workdir) "run.scr" /\
    is_absolute (parse arg) = is_absolute (parse workdir) /\
    parse (l_cwd (st_launch s)) = parse workdir.
Proof.
  intros Hrun Hlog.
  destruct (export_started host _ _ _ _ _ _ _ _ _ Hrun Hlog) as (-> & _).
  eexists. split; [reflexivity |]. simpl l_cwd.
  rewrite parse_str by (apply joinpath_wf; [apply parse_wf | apply run_scr_wf]).
  rewrite parse_str_parse. auto.
Qed.

Lemma script_argument_follows_workdir_witness :
  exists arg,
    last (l_cmd (st_launch (started_by w_small run_small_rel))) = Some arg /\
    parse arg = joinpath (parse "w") "run.scr" /\
    is_absolute (parse arg) = is_absolute (parse "w") /\
    parse (l_cwd (st_launch (started_by w_small run_small_rel))) = parse "w".
Proof.
  apply (script_argument_follows_workdir host7 "p" "o/j" "d" "a" "w"
    w_small (fst run_small_rel) (snd run_small_rel));
    vm_compute; reflexivity.
Defined.

(** *** The entry point *)

(** X10: [main] leaves the host executable and the working directory at
    their defaults: whatever the environment says, the host it starts is
    the default executable, run in the default working directory on the
    script written there. *)
Theorem main_uses_default_host host module_file w w' r s :
  main host module_file w = (w', r) ->
  launched w' = (launched w ++ [s])%list ->
  l_cmd (st_launch s) =
    [ str (parse default_acad_exe); "/product"; "PLNT3D"; "/b";
      str (joinpath (parse default_workdir) "run.scr") ] /\
  l_cwd (st_launch s) = str (parse default_workdir).
Proof.
  intros Hmain Hlog.
  pose proof (main_started host module_file w w' r s Hmain Hlog) as Hrun.
  destruct (export_started host _ _ _ _ _ _ _ _ _ Hrun Hlog) as (-> & _).
  split; reflexivity.
Qed.

Lemma main_uses_default_host_witness :
  l_cwd (st_launch (started_by w_entry run_entry))
    = str (parse default_workdir).
Proof.
  refine (proj2 (main_uses_default_host host7 "/r/m.py" w_entry
    (fst run_entry) (snd run_entry) (started_by w_entry run_entry) _ _));
    vm_compute; reflexivity.
Defined.

(** X11: when the output path [main] reads is not an existing directory,
    [main] passes it on as it is: the host finds in [PLANT_JSON_OUT] and
    [PLANT_PROJECT_XML] the values [main] read from the caller's
    variables, or their fallbacks, converted by [Path]. *)
Theorem main_passes_paths_on host module_file w w' r s :
  let project_xml :=
    default default_project_xml (environ w !! "PLANT_PROJECT_XML") in
  let out_json := default default_out_json (environ w !! "PLANT_JSON_OUT") in
  path_is_dir w (parse out_json) = false ->
  main host module_file w = (w', r) ->
  launched w' = (launched w ++ [s])%list ->
  l_env (st_launch s) !! "PLANT_JSON_OUT" = Some (str (parse out_json)) /\
  l_env (st_launch s) !! "PLANT_PROJECT_XML" = Some (str (parse project_xml)).
Proof.
  intros project_xml out_json Hdir Hmain Hlog.
  pose proof (main_started host module_file w w' r s Hmain Hlog) as Hrun.
  cbv zeta in Hrun.
  fold out_json in Hrun. fold project_xml in Hrun. rewrite Hdir in Hrun.
  destruct (export_started host _ _ _ _ _ _ _ _ _ Hrun Hlog) as (-> & _).
  simpl l_env. split.
  - apply lookup_insert_eq.
  - rewrite lookup_insert_ne by discriminate. apply lookup_insert_eq.
Qed.

Lemma main_passes_paths_on_witness :
  l_env (st_launch (started_by w_entry run_entry)) !! "PLANT_JSON_OUT"
    = Some "/o/j".
Proof.
  refine (proj1 (main_passes_paths_on host7 "/r/m.py" w_entry
    (fst run_entry) (snd run_entry) (started_by w_entry run_entry) _ _ _));
    vm_compute; reflexivity.
Defined.

(** X12: when the caller sets [PLANT_PLUGIN_DLL], the place of
    run_export.py plays no part: [main] does the same wherever the
    module lies, and the script it writes loads the plug-in the variable
    names. *)
Theorem plugin_variable_overrides_default host file1 file2 w v :
  environ w !! "PLANT_PLUGIN_DLL" = Some v ->
  main host file1 w = main host file2 w /\
  forall w' r s,
    main host file1 w = (w', r) ->
    launched w' = (launched w ++ [s])%list ->
    read_text (st_fs s) (cwd w) (joinpath (parse default_workdir) "run.scr")
      = Some (scr_text (parse v)).
Proof.
  intros Hv. split.
  - rewrite !main_eq, Hv. reflexivity.
  - intros w' r s Hmain Hlog.
    pose proof (main_started host file1 w w' r s Hmain Hlog) as Hrun.
    rewrite Hv in Hrun.
    destruct (export_started host _ _ _ _ _ _ _ _ _ Hrun Hlog)
      as (_ & Hfile & _).
    exact Hfile.
Qed.

Lemma plugin_variable_overrides_default_witness :
  main host7 "/r/m.py" w_entry = main host7 "elsewhere/run_export.py" w_entry.
Proof.
  refine (proj1 (plugin_variable_overrides_default host7 "/r/m.py"
    "elsewhere/run_export.py" w_entry "/d" _)).
  vm_compute. reflexivity.
Defined.

Lemma is_dir_answers p w :
  (forall err, stat w p = inr err -> ignore_error err = true) ->
  is_dir p w = (w, Return (path_is_dir w p)).
Proof.
  unfold is_dir, path_is_dir. intros H.
  destruct (stat w p) as [[] | err]; try reflexivity.
  now rewrite (H err eq_refl).
Qed.

Lemma is_dir_refuses p w err :
  stat w p = inr err -> ignore_error err = false ->
  is_dir p w = (w, Raise (OSError err (str p))).
Proof. unfold is_dir. now intros -> ->. Qed.

(** A short name in the caller's directory: its [stat] can only fail
    for want of the entry. *)
Lemma stat_one_name w name err :
  (NAME_MAX <? String.length name)%nat = false ->
  (PATH_MAX <=? String.length (str (mkPath "" [name])))%nat = false ->
  stat w (mkPath "" [name]) = inr err -> ignore_error err = true.
Proof.
  intros Hn Hp. unfold stat, locate. rewrite Hp.
  change (if is_absolute (mkPath "" [name]) then [] else cwd w) with (cwd w).
  change (walk (fs w) (cwd w) (tail (mkPath "" [name]))) with
    (match node_at (fs w) (cwd w) with
     | Some Dir =>
         if (NAME_MAX <? String.length name)%nat then TooLong
         else At (if String.eqb name ".." then List.tl (cwd w)
                  else name :: cwd w)
     | Some (File _) => NotDir
     | None => NoEntry
     end).
  rewrite Hn.
  destruct (node_at (fs w) (cwd w)) as [[] |]; try (now intros [= <-]).
  destruct (node_at (fs w) _); [discriminate | now intros [= <-]].
Qed.

(** The default host executable is one name of 48 bytes: its check
    cannot fail for length. *)
Lemma check_default_acad_exe w :
  path_exists w (parse default_acad_exe) = false ->
  check w (parse default_acad_exe)
    = Some (FileNotFoundError (str (parse default_acad_exe))).
Proof.
  unfold path_exists, check. intros H.
  destruct (stat w (parse default_acad_exe)) as [n | err] eqn:Es;
    [discriminate |].
  assert (Hi : ignore_error err = true); [| now rewrite Hi].
  change (parse default_acad_exe) with (mkPath "" [default_acad_exe]) in Es.
  apply (stat_one_name w default_acad_exe err); [reflexivity.. | exact Es].
Qed.

(** X13: without the default host executable the entry point cannot
    work, whatever [PLANT_PROJECT_XML] and [PLANT_PLUGIN_DLL] say: when
    [is_dir()] answers for the output path, it ends with the traceback
    of a [FileNotFoundError] for the default executable; when [is_dir()]
    itself raises (an output path too long), it ends with that
    [OSError]; either way the exit status is 1 and nothing was
    touched. *)
Theorem entry_point_without_host host module_file w :
  let out_json := default default_out_json (environ w !! "PLANT_JSON_OUT") in
  path_exists w (parse default_acad_exe) = false ->
  ((forall err, stat w (parse out_json) = inr err -> ignore_error err = true) ->
   script host module_file w
     = (w, Uncaught (FileNotFoundError (str (parse default_acad_exe))))) /\
  (forall err, stat w (parse out_json) = inr err -> ignore_error err = false ->
   script host module_file w
     = (w, Uncaught (OSError err (str (parse out_json))))) /\
  fst (script host module_file w) = w /\
  exit_status (snd (script host module_file w)) = Some 1%Z.
Proof.
  intros out_json Hmiss.
  assert (H1 : (forall err, stat w (parse out_json) = inr err ->
                            ignore_error err = true) ->
    script host module_file w
      = (w, Uncaught (FileNotFoundError (str (parse default_acad_exe))))).
  { intros Hok. unfold script. rewrite main_eq. fold out_json.
    rewrite (is_dir_answers _ _ Hok).
    rewrite (export_rejected host _ _ _ _ _ _
               (FileNotFoundError (str (parse default_acad_exe))));
      [reflexivity |].
    unfold rejection. now rewrite (check_default_acad_exe w Hmiss). }
  assert (H2 : forall err, stat w (parse out_json) = inr err ->
                           ignore_error err = false ->
    script host module_file w
      = (w, Uncaught (OSError err (str (parse out_json))))).
  { intros err Hs Hi. unfold script.
    rewrite (main_is_dir_raises host module_file w (OSError err (str (parse out_json))));
      [reflexivity |].
    now apply is_dir_refuses. }
  split; [exact H1 |]. split; [exact H2 |].
  destruct (stat w (parse out_json)) as [n | err] eqn:Es.
  - rewrite H1 by (intros err; discriminate). auto.
  - destruct (ignore_error err) eqn:Ei.
    + rewrite H1 by (intros err' [= <-]; exact Ei). auto.
    + rewrite (H2 err eq_refl Ei). auto.
Qed.

Lemma entry_point_without_host_witness :
  script host7 "/r/m.py" w_small
    = (w_small, Uncaught (FileNotFoundError (str (parse default_acad_exe)))).
Proof.
  refine (proj1 (entry_point_without_host host7 "/r/m.py" w_small _) _).
  - vm_compute. reflexivity.
  - intros err H. vm_compute in H. injection H as <-. reflexivity.
Defined.

(** *** The default plug-in *)

Lemma resolve_from_plain cur comps :
  Forall (fun c => String.eqb c ".." = false) comps ->
  resolve_from cur comps = (rev comps ++ cur)%list.
Proof.
  intros H. revert cur. induction H as [|c comps Hc _ IH]; intros cur.
  - reflexivity.
  - simpl. rewrite Hc, IH. now rewrite <- app_assoc.
Qed.

(** X14: for a module file [name] in the absolute directory
    [module_dir], written without dots, [default_plugin_dll] changes
    nothing and returns the absolute path
    [module_dir/addin/bin/Release/net8.0-windows/PlantJsonExporter.dll],
    whatever the name of the module file and the caller's directory. *)
Theorem default_plugin_below_module_directory module_dir name w :
  wf module_dir -> root module_dir = "/" ->
  Forall (fun c => String.eqb c ".." = false) (tail module_dir) ->
  wf_part name -> String.eqb name ".." = false ->
  default_plugin_dll (str (joinpath module_dir name)) w
    = (w, Return (plugin_below module_dir)) /\
  is_absolute (plugin_below module_dir) = true /\
  (tail module_dir <> [] ->
   str (plugin_below module_dir) =
   str module_dir +:+ "/addin/bin/Release/net8.0-windows/PlantJsonExporter.dll").
Proof.
  intros Hwf Hroot Hplain Hname Hn.
  split; [| split].
  - rewrite default_plugin_dll_eq.
    rewrite parse_str by (now apply joinpath_wf).
    unfold resolved, is_absolute. simpl root. simpl tail. rewrite Hroot.
    simpl negb. cbv iota.
    rewrite resolve_from_plain
      by (apply Forall_app; split; [exact Hplain | now repeat constructor]).
    rewrite app_nil_r, rev_involutive.
    unfold parent. simpl tail. rewrite removelast_last.
    destruct module_dir as [r t]. simpl in *. now subst r.
  - unfold is_absolute. simpl. now rewrite Hroot.
  - intros Hne. unfold plugin_below.
    assert (P : forall p n, wf p -> tail p <> [] -> wf_part n ->
                wf (joinpath p n) /\ tail (joinpath p n) <> [] /\
                str (joinpath p n) = str p +:+ "/" +:+ n).
    { intros p n Hp Ht Hpart. split; [now apply joinpath_wf |].
      split; [simpl; now destruct (tail p) | now apply str_joinpath]. }
    destruct (P module_dir "addin" Hwf Hne) as (W1 & T1 & E1);
      [split; reflexivity |].
    destruct (P _ "bin" W1 T1) as (W2 & T2 & E2); [split; reflexivity |].
    destruct (P _ "Release" W2 T2) as (W3 & T3 & E3); [split; reflexivity |].
    destruct (P _ "net8.0-windows" W3 T3) as (W4 & T4 & E4);
      [split; reflexivity |].
    destruct (P _ "PlantJsonExporter.dll" W4 T4) as (_ & _ & E5);
      [split; reflexivity |].
    rewrite E5, E4, E3, E2, E1. rewrite !append_assoc. reflexivity.
Qed.

Lemma default_plugin_below_module_directory_witness :
  default_plugin_dll "/r/m.py" w_small
    = (w_small, Return (plugin_below (parse "/r"))).
Proof.
  refine (proj1 (default_plugin_below_module_directory (parse "/r") "m.py"
    w_small _ _ _ _ _)); try (vm_compute; reflexivity).
  - apply parse_wf.
  - repeat constructor.
  - split; reflexivity.
Defined.

(** *** One script, one plug-in *)

Lemma append_inv_head (a b c : string) : a +:+ b = a +:+ c -> b = c.
Proof.
  induction a as [|x a IH]; [trivial |].
  rewrite !app_cons. intros [= H]. auto.
Qed.

Lemma append_inv_tail (a b c : string) : a +:+ c = b +:+ c -> a = b.
Proof.
  revert b. induction a as [|x a IH]; intros [|y b] H.
  - reflexivity.
  - apply (f_equal String.length) in H. rewrite app_nil, length_append in H.
    simpl in H. lia.
  - apply (f_equal String.length) in H. rewrite app_nil, length_append in H.
    simpl in H. lia.
  - rewrite !app_cons in H. injection H as -> H. f_equal. auto.
Qed.

Lemma scr_text_inj (p q : Path) : scr_text p = scr_text q -> str p = str q.
Proof.
  unfold scr_text. simpl join. intros H.
  apply append_inv_tail in H.
  apply append_inv_head in H. apply append_inv_head in H.
  apply append_inv_tail in H.
  apply append_inv_head in H. now apply append_inv_tail in H.
Qed.

(** X15: the script tells the plug-in: two plug-in paths that give the
    same script text are the same path. *)
Theorem script_names_one_plugin (plugin1 plugin2 : string) :
  scr_text (parse plugin1) = scr_text (parse plugin2) ->
  parse plugin1 = parse plugin2.
Proof.
  intros H. apply str_inj; [apply parse_wf | apply parse_wf |].
  now apply scr_text_inj.
Qed.

Lemma script_names_one_plugin_witness :
  parse "/data//./PlantJsonExporter.dll" = parse "/data/PlantJsonExporter.dll".
Proof.
  apply script_names_one_plugin. vm_compute. reflexivity.
Defined.

End More.
